(** * Files endpoints of the litellm proxy

    A shallow embedding of [litellm/proxy/openai_files_endpoints/files_endpoints.py]:
    the files configuration store ([set_files_config],
    [get_files_provider_config]), the model sniffer
    ([get_first_json_object], [get_model_from_json_obj], [is_known_model]),
    the create-file dispatch and the exception boundary of the five handlers.

    Python objects that are shared by reference (the configuration list and
    its dicts) live in an explicit heap, so that the in-place mutation done by
    [set_files_config] and the aliasing of the caller's list are visible.
    The interpreter limits [json.loads] runs into (the recursion budget and
    the integer digit limit) are a parameter [py_limits] of the sniffer and
    of everything that calls it. *)

From Stdlib Require Import ZArith String Ascii List Bool Lia.
From stdpp Require Import base gmap strings list.

Set Warnings "-register-all".
Unset Elimination Schemes.

Open Scope string_scope.
Open Scope Z_scope.

(* ------------------------------------------------------------------ *)
(** ** Exceptions and the proxy error *)

(** Python exceptions as the handlers observe them: [isinstance(e,
    HTTPException)] and the attributes read with [getattr].  An
    [HTTPException] always has a [status_code] (its constructor sets it). *)
Inductive exc : Type :=
| HTTPExc (status_code : Z) (detail : string)
          (message etype param : option string)
| OtherExc (cls : string) (str : string)
           (message etype param : option string) (status_code : option Z).

Definition value_error (msg : string) : exc := OtherExc "ValueError" msg None None None None.
Definition index_error (msg : string) : exc := OtherExc "IndexError" msg None None None None.
Definition attribute_error (msg : string) : exc := OtherExc "AttributeError" msg None None None None.
Definition type_error (msg : string) : exc := OtherExc "TypeError" msg None None None None.

(** [getattr(e, name, default)] *)
Definition getattr_or {A} (dflt : A) (o : option A) : A :=
  match o with Some a => a | None => dflt end.

(** [ProxyException(message=..., type=..., param=..., code=...)] *)
Record ProxyException := {
  pe_message : string;
  pe_type : string;
  pe_param : string;
  pe_code : Z
}.

(** The [except Exception as e:] block shared by the five handlers. *)
Definition to_proxy_exception (e : exc) : ProxyException :=
  match e with
  | HTTPExc sc detail m t p =>
      {| pe_message := getattr_or detail m;
         pe_type := getattr_or "None" t;
         pe_param := getattr_or "None" p;
         pe_code := sc |}
  | OtherExc _ s m t p sc =>
      {| pe_message := getattr_or s m;
         pe_type := getattr_or "None" t;
         pe_param := getattr_or "None" p;
         pe_code := getattr_or 500 sc |}
  end.

Inductive result (A : Type) : Type :=
| Ok (a : A)
| Err (e : exc).
Arguments Ok {A} a.
Arguments Err {A} e.

Definition rbind {A B} (m : result A) (k : A -> result B) : result B :=
  match m with Ok a => k a | Err e => Err e end.

Declare Scope result_scope.
Notation "x <- m ;; k" := (rbind m (fun x => k))
  (at level 100, m at next level, right associativity) : result_scope.
Open Scope result_scope.

(* ------------------------------------------------------------------ *)
(** ** Python values, dicts and the heap *)

Definition loc := positive.

Inductive value : Type :=
| VNone
| VBool (b : bool)
| VInt (z : Z)
| VStr (s : string)
| VBytes (bs : list Byte.byte)
| VTuple (vs : list value)
| VRef (l : loc).

(** Heap objects: a [list] or a [dict] (insertion-ordered, string keys). *)
Inductive obj : Type :=
| OList (vs : list value)
| ODict (kvs : list (string * value)).

Section Dict.
Context {K V : Type} `{EqDecision K}.

(** [d.get(k)] *)
Fixpoint dict_get (d : list (K * V)) (k : K) : option V :=
  match d with
  | [] => None
  | (k', v) :: d' => if decide (k' = k) then Some v else dict_get d' k
  end.

(** [d[k] = v]: an existing key keeps its position, a new key is appended. *)
Fixpoint dict_set (d : list (K * V)) (k : K) (v : V) : list (K * V) :=
  match d with
  | [] => [(k, v)]
  | (k', v') :: d' => if decide (k' = k) then (k', v) :: d' else (k', v') :: dict_set d' k v
  end.

(** [d1.update(d2)] *)
Definition dict_update (d1 d2 : list (K * V)) : list (K * V) :=
  fold_left (fun acc kv => dict_set acc kv.1 kv.2) d2 d1.

(** [d.pop(k, None)] *)
Definition dict_pop (d : list (K * V)) (k : K) : list (K * V) :=
  List.filter (fun kv => negb (bool_decide (kv.1 = k))) d.
End Dict.

Record state := {
  heap : gmap loc obj;
  files_config : value   (** the module global [files_config] *)
}.

(** Stateful code: Python exceptions do not roll back the state. *)
Definition M (A : Type) : Type := state -> result A * state.

(* ------------------------------------------------------------------ *)
(** ** The configuration store *)

Definition secret_marker : string := "os.environ/".

Section ConfigStore.

(** The environment-backed secret store read by [get_secret_str]. *)
Variable env : string -> option string.

(** Modelled from the spec: [get_secret_str] (litellm's secret manager,
    not part of this file) resolves a value carrying the secret marker to
    the corresponding environment-backed secret, here the entry of [env]
    named by the text after the marker; a missing secret is [None]. *)
Definition get_secret_str (v : string) : value :=
  match env (substring (String.length secret_marker)
                       (String.length v - String.length secret_marker) v) with
  | Some s => VStr s
  | None => VNone
  end.

(** [if isinstance(value, str) and value.startswith("os.environ/"):
       element[key] = get_secret_str(value)] *)
Definition resolve_value (v : value) : value :=
  match v with
  | VStr s => if String.prefix secret_marker s then get_secret_str s else v
  | _ => v
  end.

(** [for key, value in element.items(): ...]: each key is assigned in place,
    so the dict keeps its keys and order. *)
Definition resolve_dict (kvs : list (string * value)) : list (string * value) :=
  map (fun kv => (kv.1, resolve_value kv.2)) kvs.

(** One iteration of [for element in config:]; only dict elements are
    touched, and they are mutated in place on the heap. *)
Definition resolve_element (h : gmap loc obj) (element : value) : gmap loc obj :=
  match element with
  | VRef d =>
      match h !! d with
      | Some (ODict kvs) => <[d := ODict (resolve_dict kvs)]> h
      | _ => h
      end
  | _ => h
  end.

Definition set_files_config (config : value) : M unit := fun st =>
  match config with
  | VNone => (Ok tt, st)
  | VRef l =>
      match heap st !! l with
      | Some (OList vs) =>
          (Ok tt, {| heap := fold_left resolve_element vs (heap st);
                     files_config := config |})
      | _ => (Err (value_error "invalid files config, expected a list is not a list"), st)
      end
  | _ => (Err (value_error "invalid files config, expected a list is not a list"), st)
  end.

End ConfigStore.

(** [setting.get("custom_llm_provider") == custom_llm_provider] *)
Definition setting_matches (kvs : list (string * value)) (x : string) : bool :=
  match dict_get kvs "custom_llm_provider" with
  | Some (VStr s) => String.eqb s x
  | _ => false
  end.

(** [for setting in files_config: if setting.get(...) == ...: return setting];
    [.get] on an element that is not a dict raises [AttributeError]. *)
Fixpoint scan_settings (h : gmap loc obj) (x : string) (vs : list value) : result value :=
  match vs with
  | [] => Ok VNone
  | setting :: vs' =>
      match setting with
      | VRef d =>
          match h !! d with
          | Some (ODict kvs) => if setting_matches kvs x then Ok setting else scan_settings h x vs'
          | _ => Err (attribute_error "'list' object has no attribute 'get'")
          end
      | _ => Err (attribute_error "object has no attribute 'get'")
      end
  end.

Definition get_files_provider_config (custom_llm_provider : string) : M value := fun st =>
  if String.eqb custom_llm_provider "vertex_ai" then (Ok VNone, st)
  else match files_config st with
  | VNone => (Err (value_error "files_config is not set, set it on your config.yaml file."), st)
  | VRef l =>
      match heap st !! l with
      | Some (OList vs) => (scan_settings (heap st) custom_llm_provider vs, st)
      (* [set_files_config] only ever stores [None] or a list: see [config_wf] *)
      | _ => (Err (type_error "files_config is not iterable"), st)
      end
  | _ => (Err (type_error "files_config is not iterable"), st)
  end.

(** The states [set_files_config] can produce: [files_config] is [None] or
    refers to a list object. *)
Definition config_wf (st : state) : Prop :=
  files_config st = VNone \/
  exists l vs, files_config st = VRef l /\ heap st !! l = Some (OList vs).

(* ------------------------------------------------------------------ *)
(** ** Text: UTF-8 decoding, [str.splitlines], [str.strip] *)

(** A Python [str] is a sequence of code points. *)
Definition text := list Z.

(** An ASCII literal as a [str]. *)
Definition cps (s : string) : text :=
  map (fun a => Z.of_nat (nat_of_ascii a)) (list_ascii_of_string s).

Definition byte_val (b : Byte.byte) : Z := Z.of_N (Byte.to_N b).

Definition in_range (lo hi c : Z) : bool := (lo <=? c) && (c <=? hi).
Definition is_cont (b : Z) : bool := in_range 128 191 b.

(** [bytes.decode("utf-8")] (strict): overlong forms, surrogates and code
    points above U+10FFFF are rejected; [None] is [UnicodeDecodeError]. *)
Fixpoint utf8_decode (bs : list Z) : option text :=
  match bs with
  | [] => Some []
  | b0 :: r0 =>
      if b0 <? 128 then cons b0 <$> utf8_decode r0
      else if in_range 194 223 b0 then
        match r0 with
        | b1 :: r1 =>
            if is_cont b1
            then cons ((b0 - 192) * 64 + (b1 - 128)) <$> utf8_decode r1
            else None
        | [] => None
        end
      else if in_range 224 239 b0 then
        match r0 with
        | b1 :: b2 :: r2 =>
            let ok1 := if b0 =? 224 then in_range 160 191 b1
                       else if b0 =? 237 then in_range 128 159 b1
                       else is_cont b1 in
            if ok1 && is_cont b2
            then cons ((b0 - 224) * 4096 + (b1 - 128) * 64 + (b2 - 128)) <$> utf8_decode r2
            else None
        | _ => None
        end
      else if in_range 240 244 b0 then
        match r0 with
        | b1 :: b2 :: b3 :: r3 =>
            let ok1 := if b0 =? 240 then in_range 144 191 b1
                       else if b0 =? 244 then in_range 128 143 b1
                       else is_cont b1 in
            if ok1 && is_cont b2 && is_cont b3
            then cons ((b0 - 240) * 262144 + (b1 - 128) * 4096 + (b2 - 128) * 64 + (b3 - 128))
                   <$> utf8_decode r3
            else None
        | _ => None
        end
      else None
  end.

(** Line boundaries of [str.splitlines]. *)
Definition is_line_boundary (c : Z) : bool :=
  existsb (Z.eqb c) [10; 11; 12; 13; 28; 29; 30; 133; 8232; 8233].

(** [str.splitlines()]; [cur] is the current line, reversed; ["\r\n"] is one
    boundary, and a final boundary does not open an empty last line. *)
Fixpoint splitlines_aux (cur : text) (t : text) : list text :=
  match t with
  | [] => match cur with [] => [] | _ => [rev cur] end
  | c :: t' =>
      if is_line_boundary c then
        if c =? 13 then
          match t' with
          | d :: t2 => if d =? 10 then rev cur :: splitlines_aux [] t2
                       else rev cur :: splitlines_aux [] t'
          | [] => [rev cur]
          end
        else rev cur :: splitlines_aux [] t'
      else splitlines_aux (c :: cur) t'
  end.

Definition splitlines (t : text) : list text := splitlines_aux [] t.

(** [str.isspace] on one code point. *)
Definition py_isspace (c : Z) : bool :=
  in_range 9 13 c || in_range 28 32 c || (c =? 133) || (c =? 160) || (c =? 5760)
  || in_range 8192 8202 c || (c =? 8232) || (c =? 8233) || (c =? 8239)
  || (c =? 8287) || (c =? 12288).

Fixpoint lstrip (t : text) : text :=
  match t with
  | c :: t' => if py_isspace c then lstrip t' else t
  | [] => []
  end.

(** [str.strip()] *)
Definition strip (t : text) : text := rev (lstrip (rev (lstrip t))).

(* ------------------------------------------------------------------ *)
(** ** [json.loads] *)

(** The values [json.loads] builds.  A number keeps its lexeme (sign,
    integer digits, fraction digits, exponent); [NaN], [Infinity] and
    [-Infinity] are the non-finite literals the standard decoder accepts. *)
Inductive json : Type :=
| JNull
| JBool (b : bool)
| JNum (neg : bool) (int_digits frac_digits exp_digits : text)
| JNonFinite (lexeme : text)
| JStr (s : text)
| JArr (xs : list json)
| JObj (kvs : list (text * json)).

(** JSON whitespace, the only whitespace the decoder skips. *)
Definition is_json_ws (c : Z) : bool := (c =? 32) || (c =? 9) || (c =? 10) || (c =? 13).

Fixpoint skip_ws (s : text) : text :=
  match s with
  | c :: s' => if is_json_ws c then skip_ws s' else s
  | [] => []
  end.

Definition is_digit (c : Z) : bool := in_range 48 57 c.

Fixpoint span_digits (s : text) : text * text :=
  match s with
  | c :: s' => if is_digit c then let '(ds, r) := span_digits s' in (c :: ds, r) else ([], s)
  | [] => ([], [])
  end.

(** The literal [w] at the head of [s]. *)
Fixpoint expect_lit (w s : text) : option text :=
  match w with
  | [] => Some s
  | c :: w' =>
      match s with
      | d :: s' => if c =? d then expect_lit w' s' else None
      | [] => None
      end
  end.

Definition hex_val (c : Z) : option Z :=
  if in_range 48 57 c then Some (c - 48)
  else if in_range 97 102 c then Some (c - 87)
  else if in_range 65 70 c then Some (c - 55)
  else None.

Definition hex4 (s : text) : option (Z * text) :=
  match s with
  | a :: b :: c :: d :: r =>
      va ← hex_val a; vb ← hex_val b; vc ← hex_val c; vd ← hex_val d;
      Some (((va * 16 + vb) * 16 + vc) * 16 + vd, r)
  | _ => None
  end.

(** The one-character escapes: a backslash followed by a double quote, a
    backslash, a slash, or one of b, f, n, r, t. *)
Definition simple_escape (e : Z) : option Z :=
  if e =? 34 then Some 34 else if e =? 92 then Some 92 else if e =? 47 then Some 47
  else if e =? 98 then Some 8 else if e =? 102 then Some 12 else if e =? 110 then Some 10
  else if e =? 114 then Some 13 else if e =? 116 then Some 9 else None.

(** The body of a string literal after its opening quote (strict mode: raw
    control characters are errors).  A [\uXXXX] high surrogate followed by
    a [\uXXXX] low surrogate is joined into one code point. *)
Fixpoint parse_string (fuel : nat) (s : text) (acc : text) : option (text * text) :=
  match fuel with
  | O => None
  | S f =>
      match s with
      | [] => None
      | c :: s' =>
          if c =? 34 then Some (rev acc, s')
          else if c =? 92 then
            match s' with
            | [] => None
            | e :: s2 =>
                if e =? 117 then
                  '(u, s3) ← hex4 s2;
                  if in_range 55296 56319 u then
                    match s3 with
                    | b :: v :: s4 =>
                        if (b =? 92) && (v =? 117) then
                          '(u2, s5) ← hex4 s4;
                          if in_range 56320 57343 u2
                          then parse_string f s5 (65536 + (u - 55296) * 1024 + (u2 - 56320) :: acc)
                          else parse_string f s3 (u :: acc)
                        else parse_string f s3 (u :: acc)
                    | _ => parse_string f s3 (u :: acc)
                    end
                  else parse_string f s3 (u :: acc)
                else
                  ch ← simple_escape e; parse_string f s2 (ch :: acc)
            end
          else if c <? 32 then None
          else parse_string f s' (c :: acc)
      end
  end.

(** The interpreter limits the decoder runs into.  [nesting_budget] is the
    number of arrays and objects the C scanner can still enter before
    [Py_EnterRecursiveCall] raises [RecursionError]: the recursion limit
    less the depth of the caller's stack, which depends on the interpreter
    version and on the call site.  [int_max_str_digits] is
    [sys.get_int_max_str_digits()] (4300 by default since Python 3.11, 0
    for no limit): [int] of an integer literal with more digits raises
    [ValueError]. *)
Record py_limits := {
  nesting_budget : nat;
  int_max_str_digits : nat
}.

Definition recursion_error (what : string) : exc :=
  OtherExc "RecursionError"
    ("maximum recursion depth exceeded while decoding a JSON " ++ what ++ " from a unicode string")%string
    None None None None.

Definition int_digits_error : exc :=
  value_error "Exceeds the limit for integer string conversion".

(** What [json.loads] does: return a value, raise [JSONDecodeError], or let
    another exception escape ([ValueError], [RecursionError]). *)
Inductive decoded (A : Type) : Type :=
| Decoded (a : A)
| DecodeError
| DecodeRaised (e : exc).
Arguments Decoded {A} a.
Arguments DecodeError {A}.
Arguments DecodeRaised {A} e.

Global Instance decoded_ret : MRet decoded := fun A a => Decoded a.
Global Instance decoded_bind : MBind decoded := fun A B k m =>
  match m with
  | Decoded a => k a
  | DecodeError => DecodeError
  | DecodeRaised e => DecodeRaised e
  end.

(** A failed scan is a [JSONDecodeError]. *)
Definition of_option {A} (o : option A) : decoded A :=
  match o with Some a => Decoded a | None => DecodeError end.

Section Decoder.

Variable py : py_limits.

(** [int(integer)] on a literal without fraction or exponent checks the
    digit limit; floats are not limited. *)
Definition exceeds_int_limit (ints frac ex : text) : bool :=
  match frac, ex with
  | [], [] => negb (int_max_str_digits py =? 0)%nat && (int_max_str_digits py <? length ints)%nat
  | _, _ => false
  end.

(** A number: an optional minus, then [0] or a nonzero digit and more
    digits, an optional fraction and an optional exponent with an optional
    sign; a fraction or an exponent without digits is not part of the
    number.  The number is converted as soon as it is scanned. *)
Definition parse_number (s : text) : decoded (json * text) :=
  let '(neg, s1) := match s with c :: r => if c =? 45 then (true, r) else (false, s) | [] => (false, s) end in
  '(ints, s2) ← of_option
    match s1 with
    | c :: r => if c =? 48 then Some ([c], r)
                else if in_range 49 57 c then let '(ds, r') := span_digits r in Some (c :: ds, r')
                else None
    | [] => None
    end;
  let '(frac, s3) :=
    match s2 with
    | c :: r => if c =? 46 then
                  match span_digits r with
                  | ([], _) => ([], s2)
                  | (ds, r') => (ds, r')
                  end
                else ([], s2)
    | [] => ([], s2)
    end in
  let '(ex, s4) :=
    match s3 with
    | c :: r => if (c =? 101) || (c =? 69) then
                  let '(sg, r1) := match r with
                                   | d :: r' => if (d =? 43) || (d =? 45) then ([d], r') else ([], r)
                                   | [] => ([], r)
                                   end in
                  match span_digits r1 with
                  | ([], _) => ([], s3)
                  | (ds, r2) => (c :: sg ++ ds, r2)
                  end
                else ([], s3)
    | [] => ([], s3)
    end in
  if exceeds_int_limit ints frac ex then DecodeRaised int_digits_error
  else Decoded (JNum neg ints frac ex, s4).

(** The decoder's [scan_once]: one value, objects and arrays included.
    [depth] is what is left of the nesting budget: entering an array or an
    object with none left raises [RecursionError].  On a text of length [n]
    a call takes at most [2 * n + 1] steps (the elements of an array take
    one step more than their text), so that fuel never runs out. *)
Fixpoint parse_value (depth : nat) (fuel : nat) (s : text) : decoded (json * text) :=
  match fuel with
  | O => DecodeError
  | S f =>
      match s with
      | [] => DecodeError
      | c :: s' =>
          if c =? 34 then '(str, r) ← of_option (parse_string f s' []); Decoded (JStr str, r)
          else if c =? 123 then
            match depth with
            | O => DecodeRaised (recursion_error "object")
            | S depth' =>
                let r := skip_ws s' in
                match r with
                | d :: r' => if d =? 125 then Decoded (JObj [], r') else parse_members depth' f [] r
                | [] => DecodeError
                end
            end
          else if c =? 91 then
            match depth with
            | O => DecodeRaised (recursion_error "array")
            | S depth' =>
                let r := skip_ws s' in
                match r with
                | d :: r' => if d =? 93 then Decoded (JArr [], r') else parse_elements depth' f [] r
                | [] => DecodeError
                end
            end
          else if c =? 110 then r ← of_option (expect_lit (cps "ull") s'); Decoded (JNull, r)
          else if c =? 116 then r ← of_option (expect_lit (cps "rue") s'); Decoded (JBool true, r)
          else if c =? 102 then r ← of_option (expect_lit (cps "alse") s'); Decoded (JBool false, r)
          else if c =? 78 then r ← of_option (expect_lit (cps "aN") s'); Decoded (JNonFinite (cps "NaN"), r)
          else if c =? 73 then
            r ← of_option (expect_lit (cps "nfinity") s'); Decoded (JNonFinite (cps "Infinity"), r)
          else match expect_lit (cps "-Infinity") s with
               | Some r => Decoded (JNonFinite (cps "-Infinity"), r)
               | None => parse_number s
               end
      end
  end
(** [key: value] pairs after [{]; a repeated key keeps its first position
    and its last value. *)
with parse_members (depth : nat) (fuel : nat) (acc : list (text * json)) (s : text)
    : decoded (json * text) :=
  match fuel with
  | O => DecodeError
  | S f =>
      match s with
      | c :: s' =>
          if c =? 34 then
            '(key, r1) ← of_option (parse_string f s' []);
            r2 ← of_option (expect_lit [58] (skip_ws r1));
            '(v, r3) ← parse_value depth f (skip_ws r2);
            let acc' := dict_set acc key v in
            match skip_ws r3 with
            | d :: r4 => if d =? 44 then parse_members depth f acc' (skip_ws r4)
                         else if d =? 125 then Decoded (JObj acc', r4)
                         else DecodeError
            | [] => DecodeError
            end
          else DecodeError
      | [] => DecodeError
      end
  end
(** Elements after [\[]. *)
with parse_elements (depth : nat) (fuel : nat) (acc : list json) (s : text)
    : decoded (json * text) :=
  match fuel with
  | O => DecodeError
  | S f =>
      '(v, r1) ← parse_value depth f s;
      match skip_ws r1 with
      | d :: r2 => if d =? 44 then parse_elements depth f (acc ++ [v]) (skip_ws r2)
                   else if d =? 93 then Decoded (JArr (acc ++ [v]), r2)
                   else DecodeError
      | [] => DecodeError
      end
  end.

(** [json.loads(s)]: [DecodeError] is [JSONDecodeError] (a leading
    byte-order mark, a syntax error, or extra data after the value). *)
Definition json_loads (t : text) : decoded json :=
  match t with
  | c :: _ => if c =? 65279 then DecodeError else
      '(v, rest) ← parse_value (nesting_budget py) (S (2 * length t)) (skip_ws t);
      match skip_ws rest with [] => Decoded v | _ => DecodeError end
  | [] => DecodeError
  end.

End Decoder.

(* ------------------------------------------------------------------ *)
(** ** The model sniffer and the router *)

(** The integer a string of decimal digits spells, after [acc]. *)
Fixpoint digits_value (acc : Z) (ds : text) : Z :=
  match ds with
  | [] => acc
  | d :: ds' => digits_value (acc * 10 + (d - 48)) ds'
  end.

(** The exponent of an exponent part [e], [e+] or [e-] followed by digits. *)
Definition exp_value (ex : text) : Z :=
  match ex with
  | _ :: r =>
      match r with
      | sg :: ds => if sg =? 45 then - digits_value 0 ds
                    else if sg =? 43 then digits_value 0 ds
                    else digits_value 0 r
      | [] => 0
      end
  | [] => 0
  end.

(** [float(lexeme) != 0.0]: the literal denotes [n * 10^k] with [n] its
    digits; it rounds to [0.0] exactly when that is at most [2^-1075], half
    the least subnormal (the tie rounds to the even zero).  Below
    [10^(-len - 400)] the value is certainly that small. *)
Definition float_nonzero (ints frac ex : text) : bool :=
  let n := digits_value 0 (ints ++ frac)%list in
  let k := exp_value ex - Z.of_nat (length frac) in
  if n =? 0 then false
  else if 0 <=? k then true
  else if Z.of_nat (length (ints ++ frac)%list) + 400 <=? - k then false
  else 10 ^ (- k) <? n * 2 ^ 1075.

(** Python truthiness of a decoded value ([if json_obj:], [... or {}]): an
    integer literal is an [int], any other number a [float]; [NaN] and the
    infinities are true. *)
Definition json_truthy (j : json) : bool :=
  match j with
  | JNull => false
  | JBool b => b
  | JNum _ ints frac ex =>
      match frac, ex with
      | [], [] => negb (digits_value 0 ints =? 0)
      | _, _ => float_nonzero ints frac ex
      end
  | JNonFinite _ => true
  | JStr s => negb (bool_decide (s = []))
  | JArr xs => negb (bool_decide (xs = []))
  | JObj kvs => negb (bool_decide (kvs = []))
  end.

(** [json_object = json.loads(first_line); return json_object] under
    [except json.JSONDecodeError: return None]; other exceptions escape. *)
Definition catch_decode_error (d : decoded json) : result (option json) :=
  match d with
  | Decoded json_object => Ok (Some json_object)
  | DecodeError => Ok None
  | DecodeRaised e => Err e
  end.

(** [get_first_json_object]: only [JSONDecodeError] and
    [UnicodeDecodeError] are caught; [splitlines()[0]] on a text without
    lines raises [IndexError], and the other exceptions of [json.loads]
    escape. *)
Definition get_first_json_object (py : py_limits) (file_content_bytes : list Byte.byte)
    : result (option json) :=
  match utf8_decode (map byte_val file_content_bytes) with
  | None => Ok None
  | Some file_content =>
      match splitlines file_content with
      | [] => Err (index_error "list index out of range")
      | first_line :: _ => catch_decode_error (json_loads py (strip first_line))
      end
  end.

(** [get_model_from_json_obj]: [json_object.get("body", {}) or {}], then
    [body.get("model")]; [.get] on a value that is not a dict raises
    [AttributeError], and a JSON [null] is Python's [None]. *)
Definition get_model_from_json_obj (json_object : json) : result (option json) :=
  match json_object with
  | JObj kvs =>
      let body := match dict_get kvs (cps "body") with
                  | Some b => if json_truthy b then b else JObj []
                  | None => JObj []
                  end in
      match body with
      | JObj bkvs =>
          match dict_get bkvs (cps "model") with
          | Some JNull => Ok None
          | o => Ok o
          end
      | _ => Err (attribute_error "object has no attribute 'get'")
      end
  | _ => Err (attribute_error "object has no attribute 'get'")
  end.

(** The load-balancing router, as far as this file uses it:
    [llm_router.get_model_names()]. *)
Record Router := { model_names : list text }.

(** [is_known_model]: [model in model_names] holds only for a [str] equal
    to one of the names. *)
Definition is_known_model (model : option json) (llm_router : option Router) : bool :=
  match model, llm_router with
  | Some m, Some r =>
      match m with
      | JStr s => existsb (fun n => bool_decide (s = n)) (model_names r)
      | _ => false
      end
  | _, _ => false
  end.

(** Lines 183-191 of [create_file]: [router_model] and [is_router_model]. *)
Definition sniff_router_model (py : py_limits) (enable_loadbalancing : bool)
    (file_content : list Byte.byte) (llm_router : option Router) : result (option json * bool) :=
  if enable_loadbalancing then
    json_obj <- get_first_json_object py file_content ;;
    match json_obj with
    | Some j =>
        if json_truthy j then
          router_model <- get_model_from_json_obj j ;;
          Ok (router_model, is_known_model router_model llm_router)
        else Ok (None, false)
    | None => Ok (None, false)
    end
  else Ok (None, false).

Inductive route : Type :=
| RouteToPool (r : Router) (model : json)
| RouteToFixedProvider.

Definition router_not_initialized : exc :=
  HTTPExc 500 "{'error': 'LLM Router not initialized. Ensure models added to proxy.'}"
          None None None.

(** Lines 195-211 of [create_file]: which backend the upload goes to. *)
Definition choose_route (enable_loadbalancing : bool) (router_model : option json)
    (is_router_model : bool) (llm_router : option Router) : result route :=
  match router_model with
  | Some m =>
      if enable_loadbalancing && is_router_model then
        match llm_router with
        | None => Err router_not_initialized
        | Some r => Ok (RouteToPool r m)
        end
      else Ok RouteToFixedProvider
  | None => Ok RouteToFixedProvider
  end.

(* ------------------------------------------------------------------ *)
(** ** The create-file dispatch *)

Abbreviation dict := (list (string * value)).

Definition has_key (d : dict) (k : string) : bool :=
  match dict_get d k with Some _ => true | None => false end.

(** A call [f(k1=..., **kwargs)]: a key of [kwargs] equal to an explicit
    keyword raises [TypeError]. *)
Definition with_kwargs {A} (explicit : list string) (kwargs : dict) (call : result A) : result A :=
  if existsb (has_key kwargs) explicit
  then Err (type_error "got multiple values for keyword argument")
  else call.

(** [CreateFileRequest(file=file_data, **data)] *)
Definition create_file_request (file_data : value) (data : dict) : result dict :=
  with_kwargs ["file"] data (Ok (("file", file_data) :: data)).

(** Lines 213-219: [get_files_provider_config], then
    [_create_file_request.update(llm_provider_config)] when a setting is
    found, then [_create_file_request.pop("custom_llm_provider", None)]. *)
Definition fixed_provider_request (req : dict) (custom_llm_provider : string) : M dict := fun st =>
  match get_files_provider_config custom_llm_provider st with
  | (Err e, st') => (Err e, st')
  | (Ok llm_provider_config, st') =>
      let req' := match llm_provider_config with
                  | VRef d =>
                      match heap st' !! d with
                      | Some (ODict kvs) => dict_update req kvs
                      | _ => req   (* the lookup only returns dicts *)
                      end
                  | _ => req
                  end in
      (Ok (dict_pop req' "custom_llm_provider"), st')
  end.

(** The backend call [create_file] ends in. *)
Inductive backend_call : Type :=
| CallRouterCreateFile (r : Router) (model : json) (req : dict)
| CallCreateFile (req : dict) (custom_llm_provider : string).

(** Lines 182-221 of [create_file], up to the backend call. *)
Definition create_file_dispatch (py : py_limits) (enable_loadbalancing : bool)
    (llm_router : option Router) (file_content : list Byte.byte) (file_data : value) (data : dict)
    (custom_llm_provider : string) : M backend_call := fun st =>
  match (s <- sniff_router_model py enable_loadbalancing file_content llm_router ;;
         req <- create_file_request file_data data ;;
         rt <- choose_route enable_loadbalancing s.1 s.2 llm_router ;;
         Ok (req, rt)) with
  | Err e => (Err e, st)
  | Ok (req, RouteToPool r m) => (Ok (CallRouterCreateFile r m req), st)
  | Ok (req, RouteToFixedProvider) =>
      match fixed_provider_request req custom_llm_provider st with
      | (Ok req', st') => (Ok (CallCreateFile req' custom_llm_provider), st')
      | (Err e, st') => (Err e, st')
      end
  end.

(* ------------------------------------------------------------------ *)
(** ** The five handlers *)

(** The raw transport response wrapped by a file-content result. *)
Record httpx_response := {
  hx_content : list Byte.byte;
  hx_status_code : Z;
  hx_headers : list (string * string)
}.

(** A backend result: its [str], the [_hidden_params] entries read for the
    response headers, and [response.response]. *)
Record backend_result := {
  br_repr : string;
  br_model_id : option string;
  br_cache_key : option string;
  br_api_base : option string;
  br_response : option httpx_response
}.

(** [hidden_params.get(name, None) or ""] for the three metadata fields. *)
Definition response_metadata (br : backend_result) : string * string * string :=
  (getattr_or "" (br_model_id br), getattr_or "" (br_cache_key br), getattr_or "" (br_api_base br)).

Inductive handler_response : Type :=
| RespObject (br : backend_result) (metadata : string * string * string)
| RespRaw (content : list Byte.byte) (status_code : Z) (headers : list (string * string)).

(** What a handler does: return, raise a [ProxyException], or let another
    exception escape. *)
Inductive outcome : Type :=
| Returned (r : handler_response)
| Raised (pe : ProxyException)
| RaisedRaw (e : exc).

(** The collaborators the handlers call, with what each call yields. *)
Record World := {
  w_file_read : result (list Byte.byte);              (** [await file.read()] *)
  w_filename : value;                                  (** [file.filename] *)
  w_content_type : value;                              (** [file.content_type] *)
  w_body_provider : result (option string);            (** [get_custom_llm_provider_from_request_body] *)
  w_add_data : dict -> result dict;                    (** [add_litellm_data_to_request] *)
  w_acreate_file : dict -> string -> result backend_result;
  w_router_acreate_file : Router -> json -> dict -> result backend_result;
  w_afile_content : string -> string -> dict -> result backend_result;
  w_afile_retrieve : string -> string -> dict -> result backend_result;
  w_afile_delete : string -> string -> dict -> result backend_result;
  w_afile_list : string -> option string -> dict -> result backend_result
}.

(** The handler's local [data] is threaded as state, since the [except]
    block passes it to the failure hook. *)
Definition H (A : Type) : Type := dict -> result A * dict.

Definition hret {A} (a : A) : H A := fun d => (Ok a, d).
Definition hlift {A} (r : result A) : H A := fun d => (r, d).
Definition hbind {A B} (m : H A) (k : A -> H B) : H B := fun d =>
  match m d with
  | (Ok a, d') => k a d'
  | (Err e, d') => (Err e, d')
  end.
(** [data = ...]: the assignment happens only if the right-hand side returns. *)
Definition assign_data (r : result dict) : H dict := fun d =>
  match r with Ok d' => (Ok d', d') | Err e => (Err e, d) end.

Notation "x <~ m ;; k" := (hbind m (fun x => k))
  (at level 100, m at next level, right associativity) : result_scope.

(** [provider or await get_custom_llm_provider_from_request_body(request) or "openai"] *)
Definition resolve_provider (w : World) (provider : option string) : result string :=
  match provider with
  | Some p => if String.eqb p "" then
                b <- w_body_provider w ;;
                Ok (match b with Some s => if String.eqb s "" then "openai" else s | None => "openai" end)
              else Ok p
  | None => b <- w_body_provider w ;;
            Ok (match b with Some s => if String.eqb s "" then "openai" else s | None => "openai" end)
  end.

(** Modelled from the spec: [proxy_logging_obj.post_call_failure_hook]
    (the proxy's logging object, not part of this file) is the failure
    notification of step 6 of the handler template: it alerts or logs, then
    returns. *)
Definition post_call_failure_hook (original_exception : exc) (request_data : dict) : result unit :=
  Ok tt.

(** [data: Dict = {}], [try: body], [except Exception as e: ...]. *)
Definition handle (body : H handler_response) : outcome :=
  match body [] with
  | (Ok r, _) => Returned r
  | (Err e, data) =>
      match post_call_failure_hook e data with
      | Ok _ => Raised (to_proxy_exception e)
      | Err e' => RaisedRaw e'
      end
  end.

(** [litellm.afile_content(custom_llm_provider=..., file_id=..., **data)] *)
Definition call_afile_content (w : World) (cp file_id : string) (data : dict) : result backend_result :=
  with_kwargs ["custom_llm_provider"; "file_id"] data (w_afile_content w cp file_id data).

Definition invalid_response (br : backend_result) : exc :=
  value_error ("Invalid response - response.response is None - got " ++ br_repr br)%string.

Definition create_file_body (w : World) (py : py_limits) (enable_loadbalancing : bool)
    (llm_router : option Router) (st : state) (purpose : string) (provider : option string) : H handler_response :=
  file_content <~ hlift (w_file_read w) ;;
  custom_llm_provider <~ hlift (resolve_provider w provider) ;;
  data0 <~ assign_data (Ok [("purpose", VStr purpose)]) ;;
  data <~ assign_data (w_add_data w data0) ;;
  let file_data := VTuple [w_filename w; VBytes file_content; w_content_type w] in
  call <~ hlift (create_file_dispatch py enable_loadbalancing llm_router file_content file_data
                                      data custom_llm_provider st).1 ;;
  response <~ hlift (match call with
                     | CallRouterCreateFile r m req =>
                         with_kwargs ["model"] req (w_router_acreate_file w r m req)
                     | CallCreateFile req cp =>
                         with_kwargs ["custom_llm_provider"] req (w_acreate_file w req cp)
                     end) ;;
  hret (RespObject response (response_metadata response)).

Definition get_file_content_body (w : World) (provider : option string) (file_id : string)
    : H handler_response :=
  data <~ assign_data (w_add_data w []) ;;
  custom_llm_provider <~ hlift (resolve_provider w provider) ;;
  response <~ hlift (call_afile_content w custom_llm_provider file_id data) ;;
  let _ := response_metadata response in
  match br_response response with
  | None => hlift (Err (invalid_response response))
  | Some httpx_response =>
      hret (RespRaw (hx_content httpx_response) (hx_status_code httpx_response)
                    (hx_headers httpx_response))
  end.

Definition get_file_body (w : World) (provider : option string) (file_id : string)
    : H handler_response :=
  custom_llm_provider <~ hlift (resolve_provider w provider) ;;
  data <~ assign_data (w_add_data w []) ;;
  response <~ hlift (with_kwargs ["custom_llm_provider"; "file_id"] data
                       (w_afile_retrieve w custom_llm_provider file_id data)) ;;
  hret (RespObject response (response_metadata response)).

Definition delete_file_body (w : World) (provider : option string) (file_id : string)
    : H handler_response :=
  custom_llm_provider <~ hlift (resolve_provider w provider) ;;
  data <~ assign_data (w_add_data w []) ;;
  response <~ hlift (with_kwargs ["custom_llm_provider"; "file_id"] data
                       (w_afile_delete w custom_llm_provider file_id data)) ;;
  hret (RespObject response (response_metadata response)).

Definition list_files_body (w : World) (provider : option string) (purpose : option string)
    : H handler_response :=
  custom_llm_provider <~ hlift (resolve_provider w provider) ;;
  data <~ assign_data (w_add_data w []) ;;
  response <~ hlift (with_kwargs ["custom_llm_provider"; "purpose"] data
                       (w_afile_list w custom_llm_provider purpose data)) ;;
  hret (RespObject response (response_metadata response)).

Definition create_file w py enable_loadbalancing llm_router st purpose provider : outcome :=
  handle (create_file_body w py enable_loadbalancing llm_router st purpose provider).
Definition get_file_content w provider file_id : outcome := handle (get_file_content_body w provider file_id).
Definition get_file w provider file_id : outcome := handle (get_file_body w provider file_id).
Definition delete_file w provider file_id : outcome := handle (delete_file_body w provider file_id).
Definition list_files w provider purpose : outcome := handle (list_files_body w provider purpose).

(** The five operations, to speak of all handlers at once. *)
Inductive operation : Type :=
| OpCreate (purpose : string)
| OpGetContent (file_id : string)
| OpGet (file_id : string)
| OpDelete (file_id : string)
| OpList (purpose : option string).

Definition operation_body w py enable_loadbalancing llm_router st provider (op : operation)
    : H handler_response :=
  match op with
  | OpCreate purpose => create_file_body w py enable_loadbalancing llm_router st purpose provider
  | OpGetContent file_id => get_file_content_body w provider file_id
  | OpGet file_id => get_file_body w provider file_id
  | OpDelete file_id => delete_file_body w provider file_id
  | OpList purpose => list_files_body w provider purpose
  end.

Definition run_operation w py enable_loadbalancing llm_router st provider (op : operation) : outcome :=
  match op with
  | OpCreate purpose => create_file w py enable_loadbalancing llm_router st purpose provider
  | OpGetContent file_id => get_file_content w provider file_id
  | OpGet file_id => get_file w provider file_id
  | OpDelete file_id => delete_file w provider file_id
  | OpList purpose => list_files w provider purpose
  end.

(* ================================================================== *)
(** * Properties *)

(** ** Dicts *)

Section DictLemmas.
Context {K V : Type} `{EqDecision K}.
Implicit Types (d : list (K * V)) (k : K) (v : V).

Lemma dict_get_set d k k' v :
  dict_get (dict_set d k v) k' = if decide (k = k') then Some v else dict_get d k'.
Proof.
  induction d as [|[k0 v0] d IH]; simpl.
  - by repeat case_decide.
  - destruct (decide (k0 = k)) as [->|Hne]; simpl.
    + by repeat case_decide.
    + rewrite IH. repeat case_decide; subst; congruence.
Qed.

Lemma dict_get_not_key d k : k ∉ map fst d -> dict_get d k = None.
Proof.
  induction d as [|[k0 v0] d IH]; simpl; [done|].
  intros Hn. case_decide; subst; [set_solver|]. apply IH. set_solver.
Qed.

(** With the distinct keys of a Python dict, [d1.update(d2)] reads the
    value of [d2] where [d2] has the key and the value of [d1] elsewhere. *)
Lemma dict_get_update d1 d2 k :
  NoDup (map fst d2) ->
  dict_get (dict_update d1 d2) k =
    match dict_get d2 k with Some v => Some v | None => dict_get d1 k end.
Proof.
  unfold dict_update. revert d1.
  induction d2 as [|[k2 v2] d2 IH]; intros d1 Hnd; simpl; [done|].
  inversion Hnd as [|? ? Hk2 Hnd']; subst.
  rewrite IH by done. rewrite dict_get_set.
  case_decide as Heq; subst.
  - by rewrite dict_get_not_key.
  - done.
Qed.

Lemma dict_get_pop d k k' :
  dict_get (dict_pop d k) k' = if decide (k = k') then None else dict_get d k'.
Proof.
  unfold dict_pop. induction d as [|[k0 v0] d IH]; simpl.
  - by case_decide.
  - destruct (bool_decide (k0 = k)) eqn:Hb; simpl.
    + apply bool_decide_eq_true in Hb. subst. rewrite IH.
      by repeat case_decide.
    + apply bool_decide_eq_false in Hb. rewrite IH.
      repeat case_decide; subst; congruence.
Qed.
End DictLemmas.

(** ** The configuration store *)

(** No secret value itself carries the secret marker. *)
Definition secrets_unmarked (env : string -> option string) : Prop :=
  forall n s, env n = Some s -> String.prefix secret_marker s = false.

Lemma resolve_value_idem env v :
  secrets_unmarked env -> resolve_value env (resolve_value env v) = resolve_value env v.
Proof.
  intros Hs. destruct v as [| | |s| | |]; simpl; try done.
  destruct (String.prefix secret_marker s) eqn:Hp; simpl; [|by rewrite Hp].
  unfold get_secret_str. destruct (env _) as [s'|] eqn:He; simpl; [|done].
  by rewrite (Hs _ _ He).
Qed.

Lemma resolve_dict_idem env kvs :
  secrets_unmarked env -> resolve_dict env (resolve_dict env kvs) = resolve_dict env kvs.
Proof.
  intros Hs. unfold resolve_dict. rewrite map_map.
  apply map_ext. intros [k v]. simpl. by rewrite resolve_value_idem.
Qed.

(** [VRef i] is an element of the list. *)
Definition refs_mem (i : loc) (vs : list value) : bool :=
  existsb (fun v => match v with VRef d => bool_decide (d = i) | _ => false end) vs.

(** The object at [i] after resolving it, if it is a dict. *)
Definition resolved_at env (o : option obj) : option obj :=
  match o with Some (ODict kvs) => Some (ODict (resolve_dict env kvs)) | _ => o end.

Lemma resolved_at_idem env o :
  secrets_unmarked env -> resolved_at env (resolved_at env o) = resolved_at env o.
Proof. intros Hs. destruct o as [[|]|]; simpl; try done. by rewrite resolve_dict_idem. Qed.

Lemma resolve_element_lookup env h v i :
  resolve_element env h v !! i =
    match v with
    | VRef d => if bool_decide (d = i) then resolved_at env (h !! i) else h !! i
    | _ => h !! i
    end.
Proof.
  destruct v as [| | | | | |d]; simpl; try done.
  destruct (h !! d) as [[vs|kvs]|] eqn:Hd.
  - case_bool_decide; subst; by rewrite ?Hd.
  - case_bool_decide; subst.
    + by rewrite lookup_insert_eq, Hd.
    + by rewrite lookup_insert_ne.
  - case_bool_decide; subst; by rewrite ?Hd.
Qed.

(** The loop of [set_files_config]: every dict listed is resolved, with
    repeated listings of one dict resolving it once more each time. *)
Lemma resolve_loop_lookup env vs h i :
  secrets_unmarked env ->
  fold_left (resolve_element env) vs h !! i =
    if refs_mem i vs then resolved_at env (h !! i) else h !! i.
Proof.
  intros Hs. revert h. induction vs as [|v vs IH]; intros h; simpl; [done|].
  rewrite IH, resolve_element_lookup.
  destruct v as [| | | | | |d]; simpl; try done.
  case_bool_decide; subst; simpl.
  - destruct (refs_mem i vs); [by rewrite resolved_at_idem|done].
  - done.
Qed.

(** The list object itself is never modified by the loop. *)
Lemma resolve_loop_list env vs h l vs0 :
  h !! l = Some (OList vs0) -> fold_left (resolve_element env) vs h !! l = Some (OList vs0).
Proof.
  revert h. induction vs as [|v vs IH]; intros h Hl; simpl; [done|].
  apply IH. rewrite resolve_element_lookup.
  destruct v; try done. case_bool_decide; subst; by rewrite Hl.
Qed.

(** How many times [VRef i] is listed in [vs]. *)
Fixpoint listings (i : loc) (vs : list value) : nat :=
  match vs with
  | [] => O
  | VRef d :: vs' => if bool_decide (d = i) then S (listings i vs') else listings i vs'
  | _ :: vs' => listings i vs'
  end.

(** The loop of [set_files_config], whatever the secrets: the object at [i]
    is resolved once per listing of [i]. *)
Lemma resolve_loop_iter env vs h i :
  fold_left (resolve_element env) vs h !! i = Nat.iter (listings i vs) (resolved_at env) (h !! i).
Proof.
  revert h. induction vs as [|v vs IH]; intros h; simpl; [done|].
  rewrite IH, resolve_element_lookup.
  destruct v as [| | | | | |d]; simpl; try done.
  case_bool_decide; subst; simpl; [|done].
  apply Nat.iter_swap.
Qed.

Lemma iter_resolved_at env n kvs :
  Nat.iter n (resolved_at env) (Some (ODict kvs)) = Some (ODict (Nat.iter n (resolve_dict env) kvs)).
Proof. induction n as [|n IH]; simpl; [done|]. by rewrite IH. Qed.

Lemma iter_resolved_at_is_Some env n o : is_Some (Nat.iter n (resolved_at env) o) <-> is_Some o.
Proof.
  induction n as [|n IH]; simpl; [done|]. rewrite <- IH.
  by destruct (Nat.iter n (resolved_at env) o) as [[|]|].
Qed.

Lemma iter_resolve_dict_idem env n kvs :
  secrets_unmarked env -> (0 < n)%nat -> Nat.iter n (resolve_dict env) kvs = resolve_dict env kvs.
Proof.
  intros Hs Hn. induction n as [|[|n] IH]; [lia|done|].
  change (Nat.iter (S (S n)) (resolve_dict env) kvs)
    with (resolve_dict env (Nat.iter (S n) (resolve_dict env) kvs)).
  rewrite IH by lia. by apply resolve_dict_idem.
Qed.

Lemma listings_In d vs : In (VRef d) vs -> (0 < listings d vs)%nat.
Proof.
  induction vs as [|v vs IH]; intros Hin; [done|]. destruct Hin as [Heq|Hin]; [subst v|]; simpl.
  - case_bool_decide; [lia|done].
  - destruct v; try by apply IH. case_bool_decide; [lia|by apply IH].
Qed.

Lemma set_files_config_preserves_wf env config st st' :
  config_wf st -> set_files_config env config st = (Ok tt, st') -> config_wf st'.
Proof.
  intros Hwf Hset. destruct config as [| | | | | |l]; simpl in Hset;
    try (inversion Hset; subst; done).
  destruct (heap st !! l) as [[vs|kvs]|] eqn:Hl; inversion Hset; subst.
  right. exists l, vs. split; [done|]. simpl. by apply resolve_loop_list.
Qed.

Lemma get_files_provider_config_state x st :
  (get_files_provider_config x st).2 = st.
Proof.
  unfold get_files_provider_config.
  destruct (String.eqb x "vertex_ai"); [done|].
  destruct (files_config st); try done.
  by destruct (heap st !! l) as [[|]|].
Qed.

Lemma dict_get_resolve_dict env kvs k :
  dict_get (resolve_dict env kvs) k = resolve_value env <$> dict_get kvs k.
Proof.
  induction kvs as [|[k0 v0] kvs IH]; simpl; [done|].
  by case_decide.
Qed.

Lemma refs_mem_In d vs : In (VRef d) vs -> refs_mem d vs = true.
Proof.
  induction vs as [|v vs IH]; simpl; [done|].
  intros [->|Hin]; apply orb_true_iff; [left; by apply bool_decide_eq_true|].
  right. by apply IH.
Qed.

(** [isinstance(config, list)] *)
Definition is_list_value (h : gmap loc obj) (v : value) : bool :=
  match v with
  | VRef l => match h !! l with Some (OList _) => true | _ => false end
  | _ => false
  end.

(** [isinstance(setting, dict)] *)
Definition is_dict_value (h : gmap loc obj) (v : value) : bool :=
  match v with
  | VRef d => match h !! d with Some (ODict _) => true | _ => false end
  | _ => false
  end.

(** A settings record whose provider identifier is not [x]. *)
Definition other_setting (h : gmap loc obj) (x : string) (v : value) : Prop :=
  exists d kvs, v = VRef d /\ h !! d = Some (ODict kvs) /\ setting_matches kvs x = false.

Lemma scan_settings_skip h x pre rest :
  Forall (other_setting h x) pre -> scan_settings h x (pre ++ rest)%list = scan_settings h x rest.
Proof.
  induction 1 as [|v pre (d & kvs & Hv & Hd & Hm) _ IH]; simpl; [done|].
  subst v. by rewrite Hd, Hm.
Qed.

(** Environments used in the examples below. *)
Definition env_plain (n : string) : option string :=
  if String.eqb n "KEY" then Some "sk-123" else None.

Definition env_marked (n : string) : option string :=
  if String.eqb n "A" then Some "os.environ/B"
  else if String.eqb n "B" then Some "secret" else None.

(** A caller's configuration: the list at [1] holds the dict at [2]. *)
Definition caller_state (api_key : string) : state :=
  {| heap := <[1%positive := OList [VRef 2%positive]]>
               (<[2%positive := ODict [("custom_llm_provider", VStr "openai");
                                       ("api_key", VStr api_key)]]> ∅);
     files_config := VNone |}.

(** The same dict listed twice in the configuration list. *)
Definition twice_listed_state : state :=
  {| heap := <[1%positive := OList [VRef 2%positive; VRef 2%positive]]>
               (<[2%positive := ODict [("api_key", VStr "os.environ/A")]]> ∅);
     files_config := VNone |}.

(** A stored configuration list whose only element is a string. *)
Definition non_record_state : state :=
  {| heap := <[1%positive := OList [VStr "x"]]> ∅; files_config := VRef 1%positive |}.

Lemma env_plain_unmarked : secrets_unmarked env_plain.
Proof.
  intros n s. unfold env_plain. destruct (String.eqb n "KEY"); intros H; inversion H; done.
Qed.

(* ------------------------------------------------------------------ *)
(** ** C5: [get_files_provider_config] *)

(** C5 (as stated, refuted): a stored configuration list whose only element
    is not a settings record has no record for ["openai"], yet the lookup
    raises [AttributeError] instead of returning [None]. *)
Lemma get_files_provider_config_non_record :
  is_dict_value (heap non_record_state) (VStr "x") = false /\
  get_files_provider_config "openai" non_record_state =
    (Err (attribute_error "object has no attribute 'get'"), non_record_state).
Proof. split; vm_compute; reflexivity. Qed.

(** C5 (amended): ["vertex_ai"] gives [None] whatever the state; otherwise
    an unset configuration raises [ValueError]; otherwise the list is scanned
    in order: the first settings record with provider identifier [x] is
    returned, [None] is returned when every element is a record of another
    provider, and an element that is not a record, reached before any match,
    raises [AttributeError]. *)
Theorem get_files_provider_config_spec (x : string) (st : state) :
  (x = "vertex_ai" -> get_files_provider_config x st = (Ok VNone, st)) /\
  (x <> "vertex_ai" -> files_config st = VNone ->
     get_files_provider_config x st =
       (Err (value_error "files_config is not set, set it on your config.yaml file."), st)) /\
  (forall l vs, x <> "vertex_ai" -> files_config st = VRef l -> heap st !! l = Some (OList vs) ->
     (forall pre d kvs post, vs = (pre ++ VRef d :: post)%list ->
        Forall (other_setting (heap st) x) pre ->
        heap st !! d = Some (ODict kvs) -> setting_matches kvs x = true ->
        get_files_provider_config x st = (Ok (VRef d), st)) /\
     (Forall (other_setting (heap st) x) vs ->
        get_files_provider_config x st = (Ok VNone, st)) /\
     (forall pre v post, vs = (pre ++ v :: post)%list ->
        Forall (other_setting (heap st) x) pre -> is_dict_value (heap st) v = false ->
        exists msg, get_files_provider_config x st = (Err (attribute_error msg), st))).
Proof.
  unfold get_files_provider_config. split; [|split].
  - intros ->. reflexivity.
  - intros Hx Hc. apply String.eqb_neq in Hx. by rewrite Hx, Hc.
  - intros l vs Hx Hc Hl. apply String.eqb_neq in Hx. rewrite Hx, Hc, Hl.
    split; [|split].
    + intros pre d kvs post -> Hpre Hd Hm. rewrite scan_settings_skip by done.
      simpl. by rewrite Hd, Hm.
    + intros Hall. rewrite <- (app_nil_r vs), scan_settings_skip by done. reflexivity.
    + intros pre v post -> Hpre Hv. rewrite scan_settings_skip by done. simpl.
      destruct v as [| | | | | |d]; try (eexists; reflexivity).
      simpl in Hv. destruct (heap st !! d) as [[|]|]; try (eexists; reflexivity); done.
Qed.

Lemma get_files_provider_config_spec_witness :
  get_files_provider_config "openai" (set_files_config env_plain (VRef 1%positive) (caller_state "k")).2
    = (Ok (VRef 2%positive), (set_files_config env_plain (VRef 1%positive) (caller_state "k")).2).
Proof.
  destruct (get_files_provider_config_spec "openai"
              (set_files_config env_plain (VRef 1%positive) (caller_state "k")).2)
    as (_ & _ & H).
  destruct (H 1%positive [VRef 2%positive]) as (Hfirst & _ & _).
  - discriminate.
  - reflexivity.
  - reflexivity.
  - apply (Hfirst [] 2%positive
             [("custom_llm_provider", VStr "openai"); ("api_key", VStr "k")] []).
    + reflexivity.
    + constructor.
    + reflexivity.
    + reflexivity.
Defined.

(* ------------------------------------------------------------------ *)
(** ** C6: absent and malformed input to [set_files_config] *)

(** C6: [set_files_config(None)] returns without touching the state; a
    present value that is not a list raises [ValueError] and leaves the
    state (configuration snapshot and heap) as it was. *)
Theorem set_files_config_absent_or_not_list (env : string -> option string) (st : state) :
  set_files_config env VNone st = (Ok tt, st) /\
  (forall config, config <> VNone -> is_list_value (heap st) config = false ->
     set_files_config env config st =
       (Err (value_error "invalid files config, expected a list is not a list"), st)).
Proof.
  split; [done|].
  intros config Hn Hl. destruct config as [| | | | | |l]; simpl; try done.
  simpl in Hl. destruct (heap st !! l) as [[|]|]; done.
Qed.

Lemma set_files_config_absent_or_not_list_witness :
  set_files_config env_plain (VStr "files") (caller_state "k") =
    (Err (value_error "invalid files config, expected a list is not a list"), caller_state "k").
Proof.
  apply (proj2 (set_files_config_absent_or_not_list env_plain (caller_state "k")) (VStr "files")).
  - discriminate.
  - reflexivity.
Defined.

(* ------------------------------------------------------------------ *)
(** ** C7: secret resolution and re-application *)

(** C7 (as stated, refuted): a secret whose value itself starts with the
    marker is resolved again when [set_files_config] is applied to its own
    output, so the second application changes the snapshot. *)
Lemma set_files_config_reapplied_changes :
  let st1 := (set_files_config env_marked (VRef 1%positive) (caller_state "os.environ/A")).2 in
  heap st1 !! 2%positive =
    Some (ODict [("custom_llm_provider", VStr "openai"); ("api_key", VStr "os.environ/B")]) /\
  heap (set_files_config env_marked (VRef 1%positive) st1).2 !! 2%positive =
    Some (ODict [("custom_llm_provider", VStr "openai"); ("api_key", VStr "secret")]).
Proof. split; vm_compute; reflexivity. Qed.

(** C7 (amended): [set_files_config] resolves every listed dict in place,
    once per listing, and the list becomes the snapshot.  A dict listed once
    has each marker-prefixed string setting replaced by its secret and every
    other setting kept.  Applying [set_files_config] again to the snapshot
    resolves every listed dict once more per listing, which changes nothing
    when no secret value itself starts with the marker. *)
Theorem set_files_config_resolves (env : string -> option string) (st st' : state)
    (l : loc) (vs : list value) :
  heap st !! l = Some (OList vs) ->
  set_files_config env (VRef l) st = (Ok tt, st') ->
  files_config st' = VRef l /\
  (forall d kvs, heap st !! d = Some (ODict kvs) ->
     heap st' !! d = Some (ODict (Nat.iter (listings d vs) (resolve_dict env) kvs))) /\
  (forall d kvs k v, listings d vs = 1%nat -> heap st !! d = Some (ODict kvs) ->
     dict_get kvs k = Some v ->
     exists kvs', heap st' !! d = Some (ODict kvs') /\
       dict_get kvs' k = Some (match v with
                               | VStr s => if String.prefix secret_marker s then get_secret_str env s else v
                               | _ => v
                               end)) /\
  (forall d kvs, heap st !! d = Some (ODict kvs) ->
     exists st'', set_files_config env (VRef l) st' = (Ok tt, st'') /\
       heap st'' !! d = Some (ODict (Nat.iter (listings d vs + listings d vs) (resolve_dict env) kvs))) /\
  (secrets_unmarked env -> set_files_config env (VRef l) st' = (Ok tt, st')).
Proof.
  intros Hl Hset. simpl in Hset. rewrite Hl in Hset. inversion Hset; subst st'; clear Hset.
  assert (Hd : forall d kvs, heap st !! d = Some (ODict kvs) ->
     fold_left (resolve_element env) vs (heap st) !! d =
       Some (ODict (Nat.iter (listings d vs) (resolve_dict env) kvs))).
  { intros d kvs Hdk. by rewrite resolve_loop_iter, Hdk, iter_resolved_at. }
  assert (Hl' : fold_left (resolve_element env) vs (heap st) !! l = Some (OList vs))
    by (by apply resolve_loop_list).
  split; [done|split; [exact Hd|split; [|split]]].
  - intros d kvs k v H1 Hdk Hk. eexists. split; [apply Hd; exact Hdk|].
    rewrite H1. simpl. rewrite dict_get_resolve_dict, Hk. reflexivity.
  - intros d kvs Hdk. eexists. simpl. rewrite Hl'. split; [reflexivity|]. simpl.
    by rewrite resolve_loop_iter, (Hd _ _ Hdk), iter_resolved_at, Nat.iter_add.
  - intros Hs. simpl. rewrite Hl'. do 2 f_equal.
    apply map_eq. intros i. rewrite !resolve_loop_lookup by done.
    destruct (refs_mem i vs); [by rewrite resolved_at_idem|done].
Qed.

Lemma set_files_config_resolves_witness :
  files_config (set_files_config env_plain (VRef 1%positive) (caller_state "os.environ/KEY")).2
    = VRef 1%positive.
Proof.
  apply (set_files_config_resolves env_plain (caller_state "os.environ/KEY")
           (set_files_config env_plain (VRef 1%positive) (caller_state "os.environ/KEY")).2
           1%positive [VRef 2%positive]).
  - reflexivity.
  - reflexivity.
Defined.

(* ------------------------------------------------------------------ *)
(** ** C10: the caller's list becomes the snapshot *)

(** C10 (as stated, refuted): a dict listed twice, whose secret starts with
    the marker, is resolved twice: the caller's dict ends up holding
    ["secret"], not the resolved secret ["os.environ/B"]. *)
Lemma set_files_config_twice_listed :
  get_secret_str env_marked "os.environ/A" = VStr "os.environ/B" /\
  heap (set_files_config env_marked (VRef 1%positive) twice_listed_state).2 !! 2%positive =
    Some (ODict [("api_key", VStr "secret")]).
Proof. split; vm_compute; reflexivity. Qed.

(** C10 (amended): [set_files_config] stores the caller's own list object
    (same location, same contents) as the snapshot, creates no object, and
    mutates the caller's own dicts in place, each once per listing.  For a
    dict listed once, a marker-prefixed value reads as its secret through
    the caller's reference afterwards.  A dict listed more than once ends up
    as after one resolution when no secret value itself starts with the
    marker. *)
Theorem set_files_config_aliases_input (env : string -> option string) (h : gmap loc obj)
    (fc : value) (l : loc) (vs : list value) :
  h !! l = Some (OList vs) ->
  let '(r, st') := set_files_config env (VRef l) {| heap := h; files_config := fc |} in
  r = Ok tt /\ files_config st' = VRef l /\ heap st' !! l = Some (OList vs) /\
  (forall i, is_Some (heap st' !! i) <-> is_Some (h !! i)) /\
  (forall d kvs, h !! d = Some (ODict kvs) ->
     heap st' !! d = Some (ODict (Nat.iter (listings d vs) (resolve_dict env) kvs))) /\
  (forall d kvs k s, listings d vs = 1%nat -> h !! d = Some (ODict kvs) ->
     dict_get kvs k = Some (VStr s) -> String.prefix secret_marker s = true ->
     exists kvs', heap st' !! d = Some (ODict kvs') /\ dict_get kvs' k = Some (get_secret_str env s)) /\
  (secrets_unmarked env -> forall d kvs, In (VRef d) vs -> h !! d = Some (ODict kvs) ->
     heap st' !! d = Some (ODict (resolve_dict env kvs))).
Proof.
  intros Hl. simpl. rewrite Hl. simpl.
  assert (Hd : forall d kvs, h !! d = Some (ODict kvs) ->
     fold_left (resolve_element env) vs h !! d =
       Some (ODict (Nat.iter (listings d vs) (resolve_dict env) kvs))).
  { intros d kvs Hdk. by rewrite resolve_loop_iter, Hdk, iter_resolved_at. }
  split; [done|split; [done|split; [|split; [|split; [exact Hd|split]]]]].
  - by apply resolve_loop_list.
  - intros i. rewrite resolve_loop_iter. apply iter_resolved_at_is_Some.
  - intros d kvs k s H1 Hdk Hk Hp. eexists. split; [apply Hd; exact Hdk|].
    rewrite H1. simpl. rewrite dict_get_resolve_dict, Hk. simpl. by rewrite Hp.
  - intros Hs d kvs Hin Hdk. rewrite (Hd _ _ Hdk), iter_resolve_dict_idem; [done|done|].
    by apply listings_In.
Qed.

Lemma set_files_config_aliases_input_witness :
  let '(r, st') := set_files_config env_plain (VRef 1%positive) (caller_state "os.environ/KEY") in
  heap st' !! 2%positive =
    Some (ODict (Nat.iter (listings 2%positive [VRef 2%positive]) (resolve_dict env_plain)
                   [("custom_llm_provider", VStr "openai"); ("api_key", VStr "os.environ/KEY")])).
Proof.
  pose proof (set_files_config_aliases_input env_plain (heap (caller_state "os.environ/KEY")) VNone
                1%positive [VRef 2%positive] eq_refl) as H.
  change (caller_state "os.environ/KEY")
    with {| heap := heap (caller_state "os.environ/KEY"); files_config := VNone |}.
  destruct (set_files_config _ _ _) as [r st'].
  destruct H as (_ & _ & _ & _ & Hd & _).
  by apply Hd.
Defined.

(* ------------------------------------------------------------------ *)
(** ** The create-file dispatch *)

(** The bytes of an ASCII string, each single quote written as a double
    quote (to spell JSON lines). *)
Definition ascii_bytes (s : string) : list Byte.byte :=
  map (fun a => if Ascii.eqb a "'"%char then byte_of_ascii "034"%char else byte_of_ascii a)
      (list_ascii_of_string s).

(** The default digit limit, and a nesting budget well inside the default
    recursion limit of 1000. *)
Definition py_default : py_limits := {| nesting_budget := 900; int_max_str_digits := 4300 |}.

(** A batch file whose first line names the model ["gpt-4"]. *)
Definition gpt4_file : list Byte.byte :=
  ascii_bytes "{'body': {'model': 'gpt-4'}}".

Definition gpt4_file_data : value := VTuple [VStr "batch.jsonl"; VBytes gpt4_file; VStr "application/jsonl"].

(** A stored configuration with an [api_base] setting for ["openai"]. *)
Definition provider_config_state : state :=
  {| heap := <[1%positive := OList [VRef 2%positive]]>
               (<[2%positive := ODict [("custom_llm_provider", VStr "openai");
                                       ("api_base", VStr "https://config.example")]]> ∅);
     files_config := VRef 1%positive |}.

Definition unset_state : state := {| heap := ∅; files_config := VNone |}.

Lemma create_file_request_ok fd data :
  create_file_request fd data = Ok (("file", fd) :: data) \/
  create_file_request fd data = Err (type_error "got multiple values for keyword argument").
Proof. unfold create_file_request, with_kwargs. destruct (existsb _ _); auto. Qed.

(** C1 (as stated, refuted): where the request and the provider setting both
    have [api_base], the merged request carries the setting's value. *)
Lemma create_file_config_overrides_request :
  (create_file_dispatch py_default false None gpt4_file gpt4_file_data
     [("api_base", VStr "https://request.example")] "openai" provider_config_state).1 =
  Ok (CallCreateFile [("file", gpt4_file_data); ("api_base", VStr "https://config.example")] "openai").
Proof. vm_compute. reflexivity. Qed.

(** C1 (amended): on the fixed-provider path, when a settings record [kvs]
    exists for the provider, the outgoing request is the original request
    [CreateFileRequest(file=..., **data)] updated with the record: on every
    key the record has, the record's value wins; other keys keep the
    request's value; the provider-identifier key is absent afterwards. *)
Theorem create_file_fixed_provider_merge (py : py_limits) (enable_loadbalancing : bool)
    (llm_router : option Router) (file_content : list Byte.byte) (fd : value) (data : dict)
    (cp cp' : string) (st : state) (req' : dict) (d : loc) (kvs : list (string * value)) :
  NoDup (map fst kvs) ->
  (create_file_dispatch py enable_loadbalancing llm_router file_content fd data cp st).1 =
    Ok (CallCreateFile req' cp') ->
  get_files_provider_config cp st = (Ok (VRef d), st) ->
  heap st !! d = Some (ODict kvs) ->
  cp' = cp /\
  dict_get req' "custom_llm_provider" = None /\
  (forall k, k <> "custom_llm_provider" ->
     dict_get req' k = match dict_get kvs k with
                       | Some v => Some v
                       | None => dict_get (("file", fd) :: data) k
                       end).
Proof.
  intros Hnd Hdisp Hcfg Hd. unfold create_file_dispatch in Hdisp.
  destruct (sniff_router_model _ _ _ _) as [[rm isr]|e]; simpl in Hdisp; [|discriminate].
  destruct (create_file_request_ok fd data) as [Hr|Hr]; rewrite Hr in Hdisp; simpl in Hdisp;
    [|discriminate].
  destruct (choose_route _ _ _ _) as [[rr m|]|e]; simpl in Hdisp; try discriminate.
  unfold fixed_provider_request in Hdisp. rewrite Hcfg, Hd in Hdisp. simpl in Hdisp.
  inversion Hdisp; subst. split; [done|split].
  - rewrite dict_get_pop. by case_decide.
  - intros k Hk. rewrite dict_get_pop. case_decide; [congruence|].
    by apply dict_get_update.
Qed.

Lemma create_file_fixed_provider_merge_witness :
  dict_get [("file", gpt4_file_data); ("api_base", VStr "https://config.example")] "api_base" =
    Some (VStr "https://config.example").
Proof.
  destruct (create_file_fixed_provider_merge py_default false None gpt4_file gpt4_file_data
              [("api_base", VStr "https://request.example")] "openai" "openai"
              provider_config_state
              [("file", gpt4_file_data); ("api_base", VStr "https://config.example")]
              2%positive
              [("custom_llm_provider", VStr "openai"); ("api_base", VStr "https://config.example")])
    as (_ & _ & Hk).
  - apply (bool_decide_unpack _). vm_compute. reflexivity.
  - vm_compute. reflexivity.
  - vm_compute. reflexivity.
  - vm_compute. reflexivity.
  - apply Hk. discriminate.
Defined.

(* ------------------------------------------------------------------ *)
(** ** What escapes [json.loads] *)

(** The exceptions other than [JSONDecodeError] the decoder raises: the
    integer-conversion [ValueError] and [RecursionError]. *)
Definition decoder_exc (e : exc) : Prop :=
  e = int_digits_error \/ exists what, e = recursion_error what.

Lemma decoded_bind_raised {A B} (m : decoded A) (k : A -> decoded B) e :
  (m ≫= k) = DecodeRaised e -> m = DecodeRaised e \/ exists a, m = Decoded a /\ k a = DecodeRaised e.
Proof. destruct m as [a| |e']; cbn; intros H; [eauto|discriminate|left; congruence]. Qed.

Lemma of_option_raised {A} (o : option A) e : of_option o = DecodeRaised e -> False.
Proof. by destruct o. Qed.

Lemma parse_number_raised py s e : parse_number py s = DecodeRaised e -> e = int_digits_error.
Proof.
  unfold parse_number. intros H.
  repeat match type of H with
         | (_ ≫= _) = DecodeRaised _ => apply decoded_bind_raised in H as [H|(? & ? & H)]
         | of_option _ = DecodeRaised _ => by apply of_option_raised in H
         | context [match ?x with _ => _ end] => destruct x
         | context [if ?x then _ else _] => destruct x
         | DecodeRaised _ = DecodeRaised _ => congruence
         end; try discriminate.
Qed.

Ltac raised_cases IHv IHm IHe :=
  repeat match goal with
         | H : (_ ≫= _) = DecodeRaised _ |- _ =>
             apply decoded_bind_raised in H as [H|(? & ? & H)]
         | H : of_option _ = DecodeRaised _ |- _ => by apply of_option_raised in H
         | H : parse_number _ _ = DecodeRaised _ |- _ => left; by apply parse_number_raised in H
         | H : DecodeRaised _ = DecodeRaised _ |- _ => injection H as <-; right; eexists; reflexivity
         | H : parse_value _ _ _ _ = DecodeRaised _ |- _ => by apply IHv in H
         | H : parse_members _ _ _ _ _ = DecodeRaised _ |- _ => by apply IHm in H
         | H : parse_elements _ _ _ _ _ = DecodeRaised _ |- _ => by apply IHe in H
         | H : Decoded _ = DecodeRaised _ |- _ => discriminate H
         | H : DecodeError = DecodeRaised _ |- _ => discriminate H
         | H : context [match ?x with _ => _ end] |- _ => destruct x
         | H : context [if ?x then _ else _] |- _ => destruct x
         end.

Lemma parse_raised py fuel :
  (forall d s e, parse_value py d fuel s = DecodeRaised e -> decoder_exc e) /\
  (forall d acc s e, parse_members py d fuel acc s = DecodeRaised e -> decoder_exc e) /\
  (forall d acc s e, parse_elements py d fuel acc s = DecodeRaised e -> decoder_exc e).
Proof.
  induction fuel as [|f (IHv & IHm & IHe)]; [repeat split; discriminate|].
  split; [|split].
  - intros d [|c s'] e H; [discriminate|]. simpl in H. raised_cases IHv IHm IHe.
  - intros d acc [|c s'] e H; [discriminate|]. simpl in H. raised_cases IHv IHm IHe.
  - intros d acc s e H. simpl in H. raised_cases IHv IHm IHe.
Qed.

Lemma json_loads_raised py t e : json_loads py t = DecodeRaised e -> decoder_exc e.
Proof.
  unfold json_loads. destruct t as [|c t']; [discriminate|].
  destruct (c =? 65279); [discriminate|]. intros H.
  apply decoded_bind_raised in H as [H|([v r] & _ & H)].
  - by apply (proj1 (parse_raised _ _)) in H.
  - destruct (skip_ws r); discriminate.
Qed.

(** Errors that are not [HTTPException]s. *)
Definition not_http (e : exc) : Prop := match e with HTTPExc _ _ _ _ _ => False | _ => True end.

Lemma sniff_router_model_errors py flag fc r e :
  sniff_router_model py flag fc r = Err e -> not_http e.
Proof.
  unfold sniff_router_model, get_first_json_object.
  destruct flag; [|discriminate].
  destruct (utf8_decode _); simpl; [|discriminate].
  destruct (splitlines _); simpl; [intros [= <-]; exact I|].
  destruct (json_loads _ _) as [j| |e'] eqn:Hj; simpl; [|discriminate|].
  2:{ intros [= <-]. destruct (json_loads_raised _ _ _ Hj) as [->|[what ->]]; exact I. }
  destruct (json_truthy j); [|discriminate].
  unfold get_model_from_json_obj.
  repeat case_match; simpl; try discriminate; intros [= <-]; exact I.
Qed.

Lemma sniff_router_model_no_router py flag fc rm isr :
  sniff_router_model py flag fc None = Ok (rm, isr) -> isr = false.
Proof.
  unfold sniff_router_model. destruct flag; [|intros [= _ <-]; done].
  destruct (get_first_json_object py fc) as [[j|]|e]; simpl; try discriminate;
    [|intros [= _ <-]; done].
  destruct (json_truthy j); [|intros [= _ <-]; done].
  destruct (get_model_from_json_obj j) as [m|e]; simpl; [|discriminate].
  intros [= _ <-]. by destruct m.
Qed.

Lemma scan_settings_errors h x vs e : scan_settings h x vs = Err e -> not_http e.
Proof.
  induction vs as [|v vs IH]; simpl; [discriminate|].
  destruct v; try (intros [= <-]; exact I).
  repeat case_match; try discriminate; try (intros [= <-]; exact I). done.
Qed.

Lemma get_files_provider_config_errors x st e :
  (get_files_provider_config x st).1 = Err e -> not_http e.
Proof.
  unfold get_files_provider_config. destruct (String.eqb _ _); simpl; [discriminate|].
  destruct (files_config st); simpl; try (intros [= <-]; exact I).
  destruct (heap st !! l) as [[vs|]|]; simpl; try (intros [= <-]; exact I).
  apply scan_settings_errors.
Qed.

(** C2 (the code's behaviour): with load balancing on, a batch file naming
    ["gpt-4"] and no router, [is_known_model] is [False], so the upload takes
    the fixed-provider path: it fails with the unset-configuration
    [ValueError] or goes to [litellm.acreate_file]; the "LLM Router not
    initialized" exception is raised for no input at all. *)
Theorem create_file_router_guard_unreachable :
  (create_file_dispatch py_default true None gpt4_file gpt4_file_data [] "openai" unset_state).1 =
    Err (value_error "files_config is not set, set it on your config.yaml file.") /\
  (create_file_dispatch py_default true None gpt4_file gpt4_file_data [] "openai"
     provider_config_state).1 =
    Ok (CallCreateFile [("file", gpt4_file_data); ("api_base", VStr "https://config.example")]
                       "openai") /\
  (forall py flag llm_router fc fd data cp st,
     (create_file_dispatch py flag llm_router fc fd data cp st).1 <> Err router_not_initialized).
Proof.
  split; [vm_compute; reflexivity|split; [vm_compute; reflexivity|]].
  intros py flag r fc fd data cp st Habs. unfold create_file_dispatch in Habs.
  destruct (sniff_router_model py flag fc r) as [[rm isr]|e] eqn:Hs; simpl in Habs.
  2:{ apply sniff_router_model_errors in Hs. inversion Habs; subst. exact Hs. }
  destruct (create_file_request_ok fd data) as [Hr|Hr]; rewrite Hr in Habs; simpl in Habs;
    [|discriminate].
  unfold choose_route in Habs.
  destruct rm as [m|]; simpl in Habs.
  - destruct (flag && isr) eqn:Hf; simpl in Habs.
    + destruct r as [r|]; simpl in Habs; [discriminate|].
      apply sniff_router_model_no_router in Hs. subst isr.
      rewrite andb_false_r in Hf. discriminate.
    + unfold fixed_provider_request in Habs.
      destruct (get_files_provider_config cp st) as [[c|e] st'] eqn:Hc; simpl in Habs;
        [discriminate|].
      inversion Habs; subst e.
      pose proof (get_files_provider_config_errors cp st router_not_initialized) as He.
      rewrite Hc in He. by apply He.
  - unfold fixed_provider_request in Habs.
    destruct (get_files_provider_config cp st) as [[c|e] st'] eqn:Hc; simpl in Habs;
      [discriminate|].
    inversion Habs; subst e.
    pose proof (get_files_provider_config_errors cp st router_not_initialized) as He.
    rewrite Hc in He. by apply He.
Qed.

(* ------------------------------------------------------------------ *)
(** ** The sniffer *)

Lemma utf8_decode_empty bs : utf8_decode bs = Some [] -> bs = [].
Proof.
  destruct bs as [|b0 r0]; [done|]. simpl.
  repeat match goal with
         | |- context [if ?c then _ else _] => destruct c
         | |- context [match ?x with _ => _ end] => destruct x
         end;
    try discriminate;
    try (destruct (utf8_decode _); discriminate).
Qed.

Lemma splitlines_aux_nonempty t cur : (cur <> [] \/ t <> []) -> splitlines_aux cur t <> [].
Proof.
  revert cur. induction t as [|c t IH]; intros cur Hne; simpl.
  - destruct cur; [by destruct Hne|discriminate].
  - destruct (is_line_boundary c); [|apply IH; left; discriminate].
    destruct (c =? 13); [|discriminate].
    destruct t as [|d t2]; [discriminate|]. destruct (d =? 10); discriminate.
Qed.

Definition utf8_byte_ok (z : Z) : bool := (z <? 192) || in_range 194 244 z.

Lemma utf8_decode_bytes_ok zs t :
  utf8_decode zs = Some t -> Forall (fun z => utf8_byte_ok z = true) zs.
Proof.
  revert t. induction zs as [zs IH] using (induction_ltof1 _ (@length Z)); intros t Hd.
  destruct zs as [|b0 r0]; [constructor|].
  unfold ltof in IH. simpl in Hd.
  unfold utf8_byte_ok, is_cont, in_range in *.
  destruct (b0 <? 128) eqn:H0.
  { apply fmap_Some in Hd as (t' & Hd & _). constructor; [apply orb_true_iff; left; lia|].
    eapply IH; [simpl; lia|exact Hd]. }
  destruct ((194 <=? b0) && (b0 <=? 223)) eqn:H1.
  { destruct r0 as [|b1 r1]; [discriminate|].
    destruct ((128 <=? b1) && (b1 <=? 191)) eqn:H2; [|discriminate].
    apply fmap_Some in Hd as (t' & Hd & _).
    repeat constructor; [apply orb_true_iff; right; lia|apply orb_true_iff; left; lia|].
    eapply IH; [simpl; lia|exact Hd]. }
  destruct ((224 <=? b0) && (b0 <=? 239)) eqn:H3.
  { destruct r0 as [|b1 [|b2 r2]]; try discriminate.
    match type of Hd with (if ?c then _ else _) = _ => destruct c eqn:Hc end; [|discriminate].
    apply fmap_Some in Hd as (t' & Hd & _).
    assert (b1 < 192 /\ b2 < 192) as [Hb1 Hb2].
    { repeat (destruct (_ =? _) in Hc); simpl in Hc; lia. }
    repeat constructor; try (apply orb_true_iff; first [left; lia|right; lia]).
    eapply IH; [simpl; lia|exact Hd]. }
  destruct ((240 <=? b0) && (b0 <=? 244)) eqn:H4.
  { destruct r0 as [|b1 [|b2 [|b3 r3]]]; try discriminate.
    match type of Hd with (if ?c then _ else _) = _ => destruct c eqn:Hc end; [|discriminate].
    apply fmap_Some in Hd as (t' & Hd & _).
    assert (b1 < 192 /\ b2 < 192 /\ b3 < 192) as (Hb1 & Hb2 & Hb3).
    { repeat (destruct (_ =? _) in Hc); simpl in Hc; lia. }
    repeat constructor; try (apply orb_true_iff; first [left; lia|right; lia]).
    eapply IH; [simpl; lia|exact Hd]. }
  discriminate.
Qed.
Lemma utf8_decode_app zs1 zs2 t1 :
  utf8_decode zs1 = Some t1 -> utf8_decode (zs1 ++ zs2)%list = app t1 <$> utf8_decode zs2.
Proof.
  revert t1. induction zs1 as [zs1 IH] using (induction_ltof1 _ (@length Z)); intros t1 Hd.
  unfold ltof in IH.
  destruct zs1 as [|b0 r0]; simpl in Hd |- *.
  { injection Hd as <-. by destruct (utf8_decode zs2). }
  destruct (b0 <? 128).
  { apply fmap_Some in Hd as (t' & Hd & ->). rewrite (IH r0) with (t1 := t') by (simpl; lia || done).
    by destruct (utf8_decode zs2). }
  destruct (in_range 194 223 b0).
  { destruct r0 as [|b1 r1]; [discriminate|]. simpl.
    destruct (is_cont b1); [|discriminate].
    apply fmap_Some in Hd as (t' & Hd & ->). rewrite (IH r1) with (t1 := t') by (simpl; lia || done).
    by destruct (utf8_decode zs2). }
  destruct (in_range 224 239 b0).
  { destruct r0 as [|b1 [|b2 r2]]; try discriminate. simpl.
    match type of Hd with (if ?c then _ else _) = _ => destruct c end; [|discriminate].
    apply fmap_Some in Hd as (t' & Hd & ->). rewrite (IH r2) with (t1 := t') by (simpl; lia || done).
    by destruct (utf8_decode zs2). }
  destruct (in_range 240 244 b0).
  { destruct r0 as [|b1 [|b2 [|b3 r3]]]; try discriminate. simpl.
    match type of Hd with (if ?c then _ else _) = _ => destruct c end; [|discriminate].
    apply fmap_Some in Hd as (t' & Hd & ->). rewrite (IH r3) with (t1 := t') by (simpl; lia || done).
    by destruct (utf8_decode zs2). }
  discriminate.
Qed.

Lemma splitlines_aux_head cur tl c t :
  Forall (fun x => is_line_boundary x = false) tl -> is_line_boundary c = true ->
  exists ls, splitlines_aux cur (tl ++ c :: t)%list = (rev cur ++ tl)%list :: ls.
Proof.
  intros Htl Hc. revert cur. induction Htl as [|x tl Hx _ IH]; intros cur; simpl.
  - rewrite Hc, app_nil_r. destruct (c =? 13).
    + destruct t as [|d t2]; [by eexists|]. destruct (d =? 10); by eexists.
    + by eexists.
  - rewrite Hx. destruct (IH (x :: cur)) as [ls ->]. exists ls. simpl. by rewrite <- app_assoc.
Qed.

Lemma splitlines_aux_single cur tl :
  Forall (fun x => is_line_boundary x = false) tl -> (rev cur ++ tl)%list <> [] ->
  splitlines_aux cur tl = [(rev cur ++ tl)%list].
Proof.
  intros Htl. revert cur. induction Htl as [|x tl Hx _ IH]; intros cur Hne; simpl.
  - rewrite app_nil_r in *. destruct cur; [done|]. reflexivity.
  - rewrite Hx, IH.
    + simpl. by rewrite <- app_assoc.
    + simpl. rewrite <- app_assoc. simpl. intros Hn. apply app_eq_nil in Hn as [_ Hn]. discriminate.
Qed.

Lemma lstrip_snoc x c : py_isspace c = false -> exists y, lstrip (x ++ [c])%list = (y ++ [c])%list.
Proof.
  intros Hc. induction x as [|a x IH]; simpl.
  - rewrite Hc. by exists [].
  - destruct (py_isspace a); [done|]. by exists (a :: x).
Qed.

Lemma strip_head c t : py_isspace c = false -> exists y, strip (c :: t) = c :: y.
Proof.
  intros Hc. unfold strip. simpl. rewrite Hc. simpl.
  destruct (lstrip_snoc (rev t) c Hc) as [y ->]. rewrite rev_app_distr. simpl. by eexists.
Qed.

Lemma lstrip_all_space t : Forall (fun x => py_isspace x = true) t -> lstrip t = [].
Proof. intros Ht. induction Ht as [|x t' Hx _ IH]; simpl; [done|]. by rewrite Hx. Qed.

Lemma strip_all_space t : Forall (fun x => py_isspace x = true) t -> strip t = [].
Proof. intros H. unfold strip. by rewrite (lstrip_all_space t H). Qed.

Lemma utf8_decode_ascii zs : Forall (fun z => 0 <= z < 128) zs -> utf8_decode zs = Some zs.
Proof.
  induction 1 as [|z zs Hz _ IH]; simpl; [done|].
  replace (z <? 128) with true by lia. by rewrite IH.
Qed.

Lemma byte_val_range b : 0 <= byte_val b < 256.
Proof. unfold byte_val. pose proof (Byte.to_N_bounded b). lia. Qed.

Lemma splitlines_aux_cur_head cur t :
  cur <> [] -> exists l ls, splitlines_aux cur t = (rev cur ++ l)%list :: ls.
Proof.
  revert cur. induction t as [|c t IH]; intros cur Hne; simpl.
  - destruct cur; [done|]. exists [], []. by rewrite app_nil_r.
  - destruct (is_line_boundary c).
    + exists []. rewrite app_nil_r.
      destruct (c =? 13); [|by eexists]. destruct t as [|d t2]; [by eexists|].
      destruct (d =? 10); by eexists.
    + destruct (IH (c :: cur)) as (l & ls & ->); [discriminate|].
      exists (c :: l), ls. simpl. by rewrite <- app_assoc.
Qed.

(** The first line of [line ++ b :: rest] when [b] is an ASCII line boundary. *)
Lemma get_first_json_object_split py line rest b tl :
  utf8_decode (map byte_val line) = Some tl ->
  Forall (fun c => is_line_boundary c = false) tl ->
  byte_val b < 128 -> is_line_boundary (byte_val b) = true ->
  get_first_json_object py (line ++ b :: rest)%list =
    match utf8_decode (map byte_val rest) with
    | Some _ => catch_decode_error (json_loads py (strip tl))
    | None => Ok None
    end.
Proof.
  intros Hl Htl Hb Hbd. unfold get_first_json_object.
  rewrite map_app. simpl. rewrite (utf8_decode_app _ _ _ Hl). simpl.
  pose proof (byte_val_range b).
  replace (byte_val b <? 128) with true by lia.
  destruct (utf8_decode (map byte_val rest)) as [t|]; simpl; [|done].
  unfold splitlines. destruct (splitlines_aux_head [] tl (byte_val b) t Htl Hbd) as [ls ->].
  reflexivity.
Qed.

Lemma span_digits_repeat k : span_digits (repeat 49 k) = (repeat 49 k, []).
Proof. induction k as [|k IH]; [done|]. simpl. by rewrite IH. Qed.

Lemma lstrip_repeat c n : py_isspace c = false -> lstrip (repeat c n) = repeat c n.
Proof. intros Hc. destruct n; simpl; [done|]. by rewrite Hc. Qed.

Lemma strip_repeat c n : py_isspace c = false -> strip (repeat c n) = repeat c n.
Proof.
  intros Hc. unfold strip. rewrite lstrip_repeat, rev_repeat, lstrip_repeat by done.
  apply rev_repeat.
Qed.

(** A line of one ASCII byte repeated [n > 0] times, neither a line boundary
    nor a space, is the first line as it stands. *)
Lemma get_first_json_object_repeat py b n :
  (0 < n)%nat -> byte_val b < 128 -> is_line_boundary (byte_val b) = false ->
  py_isspace (byte_val b) = false ->
  get_first_json_object py (repeat b n) = catch_decode_error (json_loads py (repeat (byte_val b) n)).
Proof.
  intros Hn Hb Hl Hs. unfold get_first_json_object.
  rewrite map_repeat, utf8_decode_ascii.
  2:{ apply List.Forall_forall. intros z Hz. apply repeat_spec in Hz. subst.
      pose proof (byte_val_range b). lia. }
  unfold splitlines. rewrite splitlines_aux_single.
  - cbn [rev app catch_decode_error]. by rewrite strip_repeat.
  - apply List.Forall_forall. intros z Hz. apply repeat_spec in Hz. by subst.
  - destruct n; [lia|discriminate].
Qed.

(** [n] opening brackets with a nesting budget below [n] and enough fuel. *)
Lemma parse_value_brackets py d n fuel :
  (d < n)%nat -> (2 * n + 1 <= fuel)%nat ->
  parse_value py d fuel (repeat 91 n) = DecodeRaised (recursion_error "array").
Proof.
  revert n fuel. induction d as [|d IH]; intros n fuel Hd Hf.
  - destruct n as [|n]; [lia|]. destruct fuel as [|f]; [lia|]. reflexivity.
  - destruct n as [|[|n]]; try lia. destruct fuel as [|[|f]]; try lia.
    change (parse_value py (S d) (S (S f)) (repeat 91 (S (S n))))
      with (parse_elements py d (S f) [] (repeat 91 (S n))).
    change (parse_elements py d (S f) [] (repeat 91 (S n)))
      with (parse_value py d f (repeat 91 (S n)) ≫= fun '(v, r1) =>
              match skip_ws r1 with
              | d0 :: r2 => if d0 =? 44 then parse_elements py d f ([] ++ [v]) (skip_ws r2)
                            else if d0 =? 93 then Decoded (JArr ([] ++ [v]), r2)
                            else DecodeError
              | [] => DecodeError
              end).
    rewrite IH by lia. reflexivity.
Qed.

(** C3 (the code's behaviour): [get_first_json_object] raises on the empty
    byte string ([IndexError] from [splitlines()[0]]) and wherever
    [json.loads] of the stripped first line raises an exception other than
    [JSONDecodeError]: the integer-conversion [ValueError] or
    [RecursionError].  Both happen: a line of more opening brackets than
    the nesting budget raises [RecursionError], and a line of one more
    integer digit than a non-zero digit limit raises [ValueError].  On
    every other input the sniffer returns a value or [None]. *)
Theorem get_first_json_object_raises_exactly (py : py_limits) :
  (forall bs e,
     get_first_json_object py bs = Err e <->
     (bs = [] /\ e = index_error "list index out of range") \/
     (exists t line rest, utf8_decode (map byte_val bs) = Some t /\
        splitlines t = line :: rest /\ json_loads py (strip line) = DecodeRaised e)) /\
  (forall bs e, get_first_json_object py bs = Err e ->
     e = index_error "list index out of range" \/ decoder_exc e) /\
  (forall n, (nesting_budget py < n)%nat ->
     get_first_json_object py (repeat Byte.x5b n) = Err (recursion_error "array")) /\
  (int_max_str_digits py <> 0%nat ->
     get_first_json_object py (repeat Byte.x31 (S (int_max_str_digits py))) = Err int_digits_error).
Proof.
  assert (Hiff : forall bs e,
     get_first_json_object py bs = Err e <->
     (bs = [] /\ e = index_error "list index out of range") \/
     (exists t line rest, utf8_decode (map byte_val bs) = Some t /\
        splitlines t = line :: rest /\ json_loads py (strip line) = DecodeRaised e)).
  { intros bs e. split.
    - unfold get_first_json_object.
      destruct (utf8_decode (map byte_val bs)) as [t|] eqn:Hd; [|discriminate].
      destruct (splitlines t) as [|line rest] eqn:Hs.
      + intros [= <-]. left. split; [|done].
        destruct t as [|c t].
        * apply utf8_decode_empty in Hd. by destruct bs.
        * exfalso. by apply (splitlines_aux_nonempty (c :: t) []); [right|].
      + intros He. right. exists t, line, rest. split; [done|split; [done|]].
        unfold catch_decode_error in He. by case_match; simplify_eq.
    - intros [[-> ->]|(t & line & rest & Hd & Hs & Hj)]; [reflexivity|].
      unfold get_first_json_object. by rewrite Hd, Hs, Hj. }
  split; [exact Hiff|split; [|split]].
  - intros bs e He. apply Hiff in He as [[_ ->]|(t & line & rest & _ & _ & Hj)]; [by left|].
    right. by eapply json_loads_raised.
  - intros n Hn. rewrite get_first_json_object_repeat by (done || lia).
    unfold json_loads. destruct n as [|n']; [lia|].
    cbn [repeat byte_val Byte.to_N Z.of_N]. simpl (91 =? 65279).
    replace (skip_ws (91 :: repeat 91 n')) with (repeat 91 (S n')) by reflexivity.
    rewrite parse_value_brackets by (cbn [length]; rewrite ?repeat_length; lia). reflexivity.
  - intros Hm. rewrite get_first_json_object_repeat by (done || lia).
    unfold json_loads. cbn [repeat byte_val Byte.to_N Z.of_N]. simpl (49 =? 65279).
    replace (skip_ws (49 :: repeat 49 (int_max_str_digits py)))
      with (49 :: repeat 49 (int_max_str_digits py)) by reflexivity.
    simpl. unfold parse_number. simpl. rewrite span_digits_repeat.
    unfold exceeds_int_limit. simpl.
    destruct (int_max_str_digits py) as [|m] eqn:Hm'; [done|].
    rewrite repeat_length. simpl.
    replace (S m <? S (S m))%nat with true by (symmetry; apply Nat.ltb_lt; lia).
    reflexivity.
Qed.

(** The failing input: the empty upload. *)
Lemma get_first_json_object_empty :
  get_first_json_object py_default [] = Err (index_error "list index out of range").
Proof. reflexivity. Qed.

(** Sanity: the model named on the first line is found, whatever follows. *)
Example sniff_gpt4 :
  sniff_router_model py_default true (gpt4_file ++ ascii_bytes "
not json") (Some {| model_names := [cps "gpt-4"] |}) = Ok (Some (JStr (cps "gpt-4")), true).
Proof. vm_compute. reflexivity. Qed.

(* ------------------------------------------------------------------ *)
(** ** C4: load balancing off *)

(** C4: with load balancing off, nothing is sniffed, the route is the fixed
    provider whatever the file and the router, and the dispatch is the
    fixed-provider path applied to [CreateFileRequest(file=..., **data)]:
    the file content and the router do not occur on the right. *)
Theorem create_file_loadbalancing_off (py : py_limits) (llm_router : option Router)
    (file_content : list Byte.byte) (fd : value) (data : dict) (cp : string) (st : state) :
  sniff_router_model py false file_content llm_router = Ok (None, false) /\
  (s <- sniff_router_model py false file_content llm_router ;;
   choose_route false s.1 s.2 llm_router) = Ok RouteToFixedProvider /\
  create_file_dispatch py false llm_router file_content fd data cp st =
    match create_file_request fd data with
    | Err e => (Err e, st)
    | Ok req =>
        match fixed_provider_request req cp st with
        | (Ok req', st') => (Ok (CallCreateFile req' cp), st')
        | (Err e, st') => (Err e, st')
        end
    end.
Proof.
  split; [done|split; [done|]].
  unfold create_file_dispatch. simpl.
  by destruct (create_file_request fd data).
Qed.

(* ------------------------------------------------------------------ *)
(** ** The handlers *)

(** [getattr(e, "status_code", ...)] as carried by the exception. *)
Definition exc_status_code (e : exc) : option Z :=
  match e with HTTPExc sc _ _ _ _ => Some sc | OtherExc _ _ _ _ _ sc => sc end.

(** The exception's own message: its [message] attribute, else the text of
    [e.detail] for an [HTTPException] and [str(e)] otherwise. *)
Definition exc_message (e : exc) : string :=
  match e with HTTPExc _ detail m _ _ => getattr_or detail m | OtherExc _ s m _ _ _ => getattr_or s m end.

Definition exc_type (e : exc) : option string :=
  match e with HTTPExc _ _ _ t _ => t | OtherExc _ _ _ t _ _ => t end.

Definition exc_param (e : exc) : option string :=
  match e with HTTPExc _ _ _ _ p => p | OtherExc _ _ _ _ p _ => p end.

Lemma run_operation_handle w py flag r st provider op :
  run_operation w py flag r st provider op = handle (operation_body w py flag r st provider op).
Proof. by destruct op. Qed.

Lemma handle_raises body e data :
  body [] = (Err e, data) -> handle body = Raised (to_proxy_exception e).
Proof. intros Hb. unfold handle. by rewrite Hb. Qed.

Lemma handle_not_raw body e : handle body <> RaisedRaw e.
Proof. unfold handle. destruct (body []) as [[r|e'] d]; discriminate. Qed.

(** C9: no handler lets an exception escape as it is; an exception raised in
    a handler's body becomes a [ProxyException] that keeps the exception's
    status code when it carries one (500 otherwise), its message, and its
    [type] and [param] ("None" when absent). *)
Theorem files_handlers_normalize_exceptions (w : World) (py : py_limits)
    (enable_loadbalancing : bool) (llm_router : option Router) (st : state)
    (provider : option string) (op : operation) :
  (forall e, run_operation w py enable_loadbalancing llm_router st provider op <> RaisedRaw e) /\
  (forall e data,
     operation_body w py enable_loadbalancing llm_router st provider op [] = (Err e, data) ->
     run_operation w py enable_loadbalancing llm_router st provider op =
       Raised (to_proxy_exception e) /\
     pe_code (to_proxy_exception e) = getattr_or 500 (exc_status_code e) /\
     pe_message (to_proxy_exception e) = exc_message e /\
     pe_type (to_proxy_exception e) = getattr_or "None" (exc_type e) /\
     pe_param (to_proxy_exception e) = getattr_or "None" (exc_param e)).
Proof.
  rewrite run_operation_handle. split.
  - intros e. apply handle_not_raw.
  - intros e data Hb. split; [by eapply handle_raises|].
    by destruct e.
Qed.

(** A world in which [add_litellm_data_to_request] raises a rate-limit error
    and every backend call returns an empty result. *)
Definition rate_limit_error : exc :=
  OtherExc "RateLimitError" "rate limited" (Some "Rate limit reached") None None (Some 429).

Definition empty_result : backend_result :=
  {| br_repr := "FileContent()"; br_model_id := None; br_cache_key := None;
     br_api_base := None; br_response := None |}.

Definition rate_limited_world : World :=
  {| w_file_read := Ok gpt4_file;
     w_filename := VStr "batch.jsonl";
     w_content_type := VStr "application/jsonl";
     w_body_provider := Ok None;
     w_add_data := fun _ => Err rate_limit_error;
     w_acreate_file := fun _ _ => Ok empty_result;
     w_router_acreate_file := fun _ _ _ => Ok empty_result;
     w_afile_content := fun _ _ _ => Ok empty_result;
     w_afile_retrieve := fun _ _ _ => Ok empty_result;
     w_afile_delete := fun _ _ _ => Ok empty_result;
     w_afile_list := fun _ _ _ => Ok empty_result |}.

Lemma files_handlers_normalize_exceptions_witness :
  run_operation rate_limited_world py_default false None unset_state None (OpList None) =
    Raised {| pe_message := "Rate limit reached"; pe_type := "None"; pe_param := "None";
              pe_code := 429 |}.
Proof.
  destruct (files_handlers_normalize_exceptions rate_limited_world py_default false None unset_state None
              (OpList None)) as [_ H].
  destruct (H rate_limit_error []) as [-> _].
  - reflexivity.
  - reflexivity.
Defined.

(** C8: once the content backend call has returned a result, the handler
    raises a 500 [ProxyException] about the invalid response when
    [response.response] is [None], and otherwise returns that transport
    response's content, status code and headers unchanged. *)
Theorem get_file_content_passthrough (w : World) (provider : option string) (file_id : string)
    (data : dict) (cp : string) (br : backend_result) :
  w_add_data w [] = Ok data ->
  resolve_provider w provider = Ok cp ->
  call_afile_content w cp file_id data = Ok br ->
  (br_response br = None ->
     get_file_content w provider file_id =
       Raised {| pe_message := ("Invalid response - response.response is None - got " ++ br_repr br)%string;
                 pe_type := "None"; pe_param := "None"; pe_code := 500 |}) /\
  (forall hx, br_response br = Some hx ->
     get_file_content w provider file_id =
       Returned (RespRaw (hx_content hx) (hx_status_code hx) (hx_headers hx))).
Proof.
  intros Hd Hp Hc. unfold get_file_content, get_file_content_body, handle, hbind, assign_data, hlift.
  rewrite Hd, Hp, Hc. simpl. split.
  - intros Hn. by rewrite Hn.
  - intros hx Hs. by rewrite Hs.
Qed.

Definition content_world : World :=
  {| w_file_read := Ok [];
     w_filename := VNone;
     w_content_type := VNone;
     w_body_provider := Ok None;
     w_add_data := fun _ => Ok [("litellm_call_id", VStr "call-1")];
     w_acreate_file := fun _ _ => Ok empty_result;
     w_router_acreate_file := fun _ _ _ => Ok empty_result;
     w_afile_content := fun _ _ _ => Ok empty_result;
     w_afile_retrieve := fun _ _ _ => Ok empty_result;
     w_afile_delete := fun _ _ _ => Ok empty_result;
     w_afile_list := fun _ _ _ => Ok empty_result |}.

Lemma get_file_content_passthrough_witness :
  get_file_content content_world None "abc" =
    Raised {| pe_message := "Invalid response - response.response is None - got FileContent()";
              pe_type := "None"; pe_param := "None"; pe_code := 500 |}.
Proof.
  apply (proj1 (get_file_content_passthrough content_world None "abc"
                  [("litellm_call_id", VStr "call-1")] "openai" empty_result
                  eq_refl eq_refl eq_refl)).
  reflexivity.
Defined.

(* ================================================================== *)
(** * Further properties of the code *)

(** X5: a file containing a byte 0xC0, 0xC1 or 0xF5 to 0xFF anywhere is not UTF-8, so the sniffer returns [None]. *)
Theorem get_first_json_object_invalid_byte (py : py_limits) (bs : list Byte.byte) (b : Byte.byte) :
  In b bs -> (byte_val b = 192 \/ byte_val b = 193 \/ 245 <= byte_val b) ->
  get_first_json_object py bs = Ok None.
Proof.
  intros Hin Hb. unfold get_first_json_object.
  destruct (utf8_decode (map byte_val bs)) as [t|] eqn:Hd; [|done].
  apply utf8_decode_bytes_ok in Hd. rewrite List.Forall_forall in Hd.
  specialize (Hd (byte_val b) (in_map _ _ _ Hin)).
  unfold utf8_byte_ok, in_range in Hd. exfalso. lia.
Qed.

Lemma get_first_json_object_invalid_byte_witness :
  get_first_json_object py_default [Byte.x7b; Byte.xff; Byte.x7d] = Ok None.
Proof. apply (get_first_json_object_invalid_byte _ _ Byte.xff); [simpl; tauto|vm_compute; right; right; discriminate]. Defined.

(** X6: only the first line is parsed, but the whole file is decoded: a one-line file gives the outcome of [json.loads] on its stripped line (its value, [None] for [JSONDecodeError], or the exception it raises); a first line followed by an ASCII line boundary gives the same when the rest decodes as UTF-8 and [None] when it does not. *)
Theorem get_first_json_object_first_line (py : py_limits) (line rest : list Byte.byte) (b : Byte.byte)
    (tl : text) :
  utf8_decode (map byte_val line) = Some tl ->
  Forall (fun c => is_line_boundary c = false) tl ->
  (tl <> [] -> get_first_json_object py line = catch_decode_error (json_loads py (strip tl))) /\
  (byte_val b < 128 -> is_line_boundary (byte_val b) = true ->
   get_first_json_object py (line ++ b :: rest)%list =
     match utf8_decode (map byte_val rest) with
     | Some _ => catch_decode_error (json_loads py (strip tl))
     | None => Ok None
     end).
Proof.
  intros Hl Htl. split.
  - intros Hne. unfold get_first_json_object. rewrite Hl. unfold splitlines.
    by rewrite splitlines_aux_single.
  - by apply get_first_json_object_split.
Qed.

Lemma get_first_json_object_first_line_witness :
  get_first_json_object py_default (gpt4_file ++ Byte.x0a :: [Byte.xff])%list = Ok None.
Proof.
  rewrite (proj2 (get_first_json_object_first_line py_default gpt4_file [Byte.xff] Byte.x0a
                    (map byte_val gpt4_file) eq_refl
                    ltac:(vm_compute; repeat constructor))
             ltac:(vm_compute; reflexivity) eq_refl).
  reflexivity.
Defined.

(** X7: a first line made only of spaces and tabs, ended by an ASCII line boundary, makes the sniffer return [None], whatever the later lines hold. *)
Theorem get_first_json_object_blank_first_line (py : py_limits) (line rest : list Byte.byte)
    (b : Byte.byte) :
  Forall (fun x => byte_val x = 32 \/ byte_val x = 9) line ->
  byte_val b < 128 -> is_line_boundary (byte_val b) = true ->
  get_first_json_object py (line ++ b :: rest)%list = Ok None.
Proof.
  intros Hl Hb Hbd.
  assert (Forall (fun z => 0 <= z < 128) (map byte_val line)) as Ha.
  { apply Forall_map. eapply Forall_impl; [exact Hl|]. intros x [-> | ->]; lia. }
  rewrite (get_first_json_object_split py line rest b (map byte_val line)); try done.
  - rewrite strip_all_space.
    + by destruct (utf8_decode _).
    + apply Forall_map. eapply Forall_impl; [exact Hl|]. intros x [-> | ->]; reflexivity.
  - by apply utf8_decode_ascii.
  - apply Forall_map. eapply Forall_impl; [exact Hl|]. intros x [-> | ->]; reflexivity.
Qed.

Lemma get_first_json_object_blank_first_line_witness :
  get_first_json_object py_default ([Byte.x20; Byte.x0a] ++ gpt4_file)%list = Ok None.
Proof.
  apply (get_first_json_object_blank_first_line py_default [Byte.x20] gpt4_file Byte.x0a).
  - constructor; [left; reflexivity|constructor].
  - vm_compute. reflexivity.
  - reflexivity.
Defined.

(** X8: a file that starts with the UTF-8 byte-order mark makes the sniffer return [None]: [str.strip] keeps U+FEFF and [json.loads] rejects it. *)
Theorem get_first_json_object_bom (py : py_limits) (rest : list Byte.byte) :
  get_first_json_object py (Byte.xef :: Byte.xbb :: Byte.xbf :: rest) = Ok None.
Proof.
  unfold get_first_json_object. cbn [map].
  assert (Hbom : forall zs, utf8_decode (byte_val Byte.xef :: byte_val Byte.xbb :: byte_val Byte.xbf :: zs)
                           = cons 65279 <$> utf8_decode zs) by reflexivity.
  rewrite Hbom.
  destruct (utf8_decode (map byte_val rest)) as [t|]; simpl; [|done].
  unfold splitlines. simpl.
  destruct (splitlines_aux_cur_head [65279] t) as (l & ls & ->); [discriminate|].
  simpl. destruct (strip_head 65279 l) as [y ->]; [reflexivity|]. reflexivity.
Qed.

(** X10: with load balancing on, a first line that parses to a truthy JSON value other than an object (a non-empty string or array, [true], a non-zero number, [NaN], [Infinity]) makes the create-file dispatch raise [AttributeError], leaving the state as it was. *)
Theorem create_file_dispatch_line_not_object (py : py_limits) (llm_router : option Router)
    (fc : list Byte.byte) (fd : value) (data : dict) (cp : string) (st : state) (j : json) :
  get_first_json_object py fc = Ok (Some j) ->
  match j with JObj _ => False | _ => json_truthy j = true end ->
  exists msg, create_file_dispatch py true llm_router fc fd data cp st = (Err (attribute_error msg), st).
Proof.
  intros Hj Ht. unfold create_file_dispatch, sniff_router_model. rewrite Hj. simpl.
  destruct j; try contradiction; rewrite Ht; simpl; eexists; reflexivity.
Qed.

Lemma create_file_dispatch_line_not_object_witness :
  exists msg, create_file_dispatch py_default true None (ascii_bytes "[1]") gpt4_file_data [] "openai"
    unset_state = (Err (attribute_error msg), unset_state).
Proof.
  apply (create_file_dispatch_line_not_object py_default None (ascii_bytes "[1]") gpt4_file_data [] "openai"
           unset_state (JArr [JNum false (cps "1") [] []])).
  - vm_compute. reflexivity.
  - reflexivity.
Defined.

(** X9: [get_model_from_json_obj] gives [None] when [body] is absent or falsy; for a [body] object it gives its [model] entry, [None] when absent or [null]; a truthy [body] that is a string, array, boolean or non-finite number raises [AttributeError]. *)
Theorem get_model_from_json_obj_edges (kvs : list (text * json)) :
  (match dict_get kvs (cps "body") with Some b => json_truthy b = false | None => True end ->
     get_model_from_json_obj (JObj kvs) = Ok None) /\
  (forall bkvs, dict_get kvs (cps "body") = Some (JObj bkvs) ->
     get_model_from_json_obj (JObj kvs) =
       Ok (match dict_get bkvs (cps "model") with Some JNull => None | o => o end)) /\
  (forall b, dict_get kvs (cps "body") = Some b ->
     match b with JObj _ | JNum _ _ _ _ => False | _ => json_truthy b = true end ->
     exists msg, get_model_from_json_obj (JObj kvs) = Err (attribute_error msg)).
Proof.
  unfold get_model_from_json_obj. split; [|split].
  - destruct (dict_get kvs (cps "body")) as [b|]; [|done]. intros Hb. by rewrite Hb.
  - intros bkvs Hb. rewrite Hb. destruct bkvs as [|kv bkvs]; [done|].
    replace (json_truthy (JObj (kv :: bkvs))) with true by reflexivity.
    by destruct (dict_get (kv :: bkvs) (cps "model")) as [[]|].
  - intros b Hbody Hb. rewrite Hbody. destruct b; try contradiction; rewrite Hb; eexists; reflexivity.
Qed.

Lemma get_model_from_json_obj_edges_witness :
  get_model_from_json_obj (JObj [(cps "body", JNull)]) = Ok None.
Proof. apply (proj1 (get_model_from_json_obj_edges [(cps "body", JNull)])). reflexivity. Defined.

Lemma existsb_bool_decide_In (s : text) ns : existsb (fun n => bool_decide (s = n)) ns = true <-> In s ns.
Proof.
  rewrite existsb_exists. split.
  - intros (n & Hin & Hb). apply bool_decide_eq_true in Hb. by subst.
  - intros Hin. exists s. split; [done|]. by apply bool_decide_eq_true.
Qed.

(** X12: the upload goes to the router's [acreate_file] exactly when load balancing is on, a router is set, the first line is a non-empty object whose [body.model] is a string among the router's model names, and [data] has no [file] key; the request is then [CreateFileRequest(file=..., **data)] unmerged, and the state is unchanged. *)
Theorem create_file_dispatch_pool_iff (py : py_limits) (flag : bool) (llm_router : option Router)
    (fc : list Byte.byte) (fd : value) (data : dict) (cp : string) (st : state)
    (r : Router) (m : json) (req : dict) (st' : state) :
  create_file_dispatch py flag llm_router fc fd data cp st = (Ok (CallRouterCreateFile r m req), st') <->
  flag = true /\ llm_router = Some r /\ st' = st /\ has_key data "file" = false /\
  req = (("file", fd) :: data) /\
  exists j s, get_first_json_object py fc = Ok (Some j) /\ json_truthy j = true /\
    get_model_from_json_obj j = Ok (Some (JStr s)) /\ m = JStr s /\ In s (model_names r).
Proof.
  split.
  - intros H. unfold create_file_dispatch in H.
    destruct (sniff_router_model py flag fc llm_router) as [[rm isr]|e] eqn:Hs; simpl in H;
      [|discriminate].
    unfold create_file_request, with_kwargs in H. simpl in H.
    destruct (has_key data "file") eqn:Hf; simpl in H; [discriminate|].
    destruct (choose_route flag rm isr llm_router) as [[r0 m0|]|e] eqn:Hc; simpl in H.
    + injection H as <- <- <- <-.
      unfold choose_route in Hc.
      destruct rm as [m0'|]; [|discriminate].
      destruct (flag && isr) eqn:Hfi; [|discriminate].
      destruct llm_router as [r1|]; [|discriminate]. injection Hc as <- <-.
      apply andb_true_iff in Hfi as [-> ->].
      unfold sniff_router_model in Hs.
      destruct (get_first_json_object py fc) as [[j|]|e] eqn:Hj; simpl in Hs; try discriminate.
      destruct (json_truthy j) eqn:Ht; [|discriminate].
      destruct (get_model_from_json_obj j) as [rm|e] eqn:Hm; simpl in Hs; [|discriminate].
      injection Hs as -> Hk.
      destruct m0' as [| | | |s| |]; try discriminate. simpl in Hk.
      apply existsb_bool_decide_In in Hk.
      repeat split; try done. exists j, s. by repeat split.
    + unfold fixed_provider_request in H.
      destruct (get_files_provider_config cp st) as [[c|e] st'']; simpl in H; discriminate.
    + discriminate.
  - intros (-> & -> & -> & Hf & -> & j & s & Hj & Ht & Hm & -> & Hin).
    unfold create_file_dispatch, sniff_router_model, create_file_request, with_kwargs.
    rewrite Hj. simpl. rewrite Ht, Hm. simpl. rewrite Hf. simpl.
    apply existsb_bool_decide_In in Hin. by rewrite Hin.
Qed.

Lemma create_file_dispatch_pool_iff_witness :
  create_file_dispatch py_default true (Some {| model_names := [cps "gpt-4"] |}) gpt4_file
    gpt4_file_data [] "openai" unset_state =
    (Ok (CallRouterCreateFile {| model_names := [cps "gpt-4"] |} (JStr (cps "gpt-4"))
           [("file", gpt4_file_data)]), unset_state).
Proof.
  apply (create_file_dispatch_pool_iff py_default true (Some {| model_names := [cps "gpt-4"] |}) gpt4_file
           gpt4_file_data [] "openai" unset_state).
  repeat split. exists (JObj [(cps "body", JObj [(cps "model", JStr (cps "gpt-4"))])]), (cps "gpt-4").
  repeat split; try (vm_compute; reflexivity). left. reflexivity.
Defined.

(** X11: with load balancing on, an upload whose sniffed model is not a router model is dispatched exactly as with load balancing off. *)
Theorem create_file_dispatch_unrouted_as_off (py : py_limits) (llm_router : option Router)
    (fc : list Byte.byte) (fd : value) (data : dict) (cp : string) (st : state) (rm : option json) :
  sniff_router_model py true fc llm_router = Ok (rm, false) ->
  create_file_dispatch py true llm_router fc fd data cp st =
    create_file_dispatch py false llm_router fc fd data cp st.
Proof.
  intros Hs. unfold create_file_dispatch. rewrite Hs. simpl.
  destruct (create_file_request fd data); simpl; [|done].
  unfold choose_route. by destruct rm.
Qed.

Lemma create_file_dispatch_unrouted_as_off_witness :
  create_file_dispatch py_default true (Some {| model_names := [cps "gpt-3.5"] |}) gpt4_file
    gpt4_file_data [] "openai" provider_config_state =
  create_file_dispatch py_default false (Some {| model_names := [cps "gpt-3.5"] |}) gpt4_file
    gpt4_file_data [] "openai" provider_config_state.
Proof.
  apply (create_file_dispatch_unrouted_as_off _ _ _ _ _ _ _ (Some (JStr (cps "gpt-4")))).
  vm_compute. reflexivity.
Defined.

(** X14: on the fixed-provider path, when no settings record exists for the provider, the request forwarded is [CreateFileRequest(file=..., **data)] with [custom_llm_provider] removed; for [vertex_ai] this holds with no files configuration at all. *)
Theorem create_file_dispatch_no_record (py : py_limits) (flag : bool) (llm_router : option Router)
    (fc : list Byte.byte) (fd : value) (data : dict) (cp cp' : string) (st : state) (req' : dict)
    (rm : option json) :
  ((get_files_provider_config cp st).1 = Ok VNone ->
   (create_file_dispatch py flag llm_router fc fd data cp st).1 = Ok (CallCreateFile req' cp') ->
   cp' = cp /\ req' = dict_pop (("file", fd) :: data) "custom_llm_provider") /\
  (sniff_router_model py flag fc llm_router = Ok (rm, false) -> has_key data "file" = false ->
   create_file_dispatch py flag llm_router fc fd data "vertex_ai" st =
     (Ok (CallCreateFile (dict_pop (("file", fd) :: data) "custom_llm_provider") "vertex_ai"), st)).
Proof.
  split.
  - intros Hc H. unfold create_file_dispatch in H.
    destruct (sniff_router_model py flag fc llm_router) as [[rm' isr]|e]; simpl in H; [|discriminate].
    unfold create_file_request, with_kwargs in H. simpl in H.
    destruct (has_key data "file"); simpl in H; [discriminate|].
    destruct (choose_route flag rm' isr llm_router) as [[r0 m0|]|e]; simpl in H; try discriminate.
    unfold fixed_provider_request in H.
    pose proof (get_files_provider_config_state cp st) as Hst.
    destruct (get_files_provider_config cp st) as [[c|e] st'']; simpl in *; [|discriminate].
    injection Hc as ->. by injection H as <- <-.
  - intros Hs Hf. unfold create_file_dispatch. rewrite Hs. simpl.
    unfold create_file_request, with_kwargs. simpl. rewrite Hf. simpl.
    unfold choose_route. destruct rm; simpl; rewrite ?andb_false_r; reflexivity.
Qed.

Lemma create_file_dispatch_no_record_witness :
  create_file_dispatch py_default false None gpt4_file gpt4_file_data
    [("custom_llm_provider", VStr "vertex_ai")] "vertex_ai" unset_state =
    (Ok (CallCreateFile [("file", gpt4_file_data)] "vertex_ai"), unset_state).
Proof.
  apply (proj2 (create_file_dispatch_no_record py_default false None gpt4_file gpt4_file_data
                  [("custom_llm_provider", VStr "vertex_ai")] "vertex_ai" "vertex_ai" unset_state []
                  None)).
  - reflexivity.
  - reflexivity.
Defined.

Lemma create_file_dispatch_fixed_no_provider_key py flag r fc fd data cp st req cp' :
  (create_file_dispatch py flag r fc fd data cp st).1 = Ok (CallCreateFile req cp') ->
  cp' = cp /\ has_key req "custom_llm_provider" = false.
Proof.
  intros H. unfold create_file_dispatch in H.
  destruct (_ <- _ ;; _) as [[req0 [r0 m0|]]|e]; simpl in H; try discriminate.
  unfold fixed_provider_request in H.
  destruct (get_files_provider_config cp st) as [[c|e] st'']; simpl in H; [|discriminate].
  injection H as <- <-. split; [done|].
  unfold has_key. rewrite dict_get_pop. by case_decide.
Qed.

(** X15: on the fixed-provider path [create_file] returns the result of [litellm.acreate_file] with its response metadata; the [custom_llm_provider] keyword never clashes, since the key is popped from the request. *)
Theorem create_file_fixed_provider_returns (w : World) (py : py_limits) (flag : bool)
    (llm_router : option Router) (st : state) (purpose : string) (provider : option string)
    (fc : list Byte.byte) (cp cp' : string) (data req : dict) (br : backend_result) :
  w_file_read w = Ok fc -> resolve_provider w provider = Ok cp ->
  w_add_data w [("purpose", VStr purpose)] = Ok data ->
  (create_file_dispatch py flag llm_router fc (VTuple [w_filename w; VBytes fc; w_content_type w])
     data cp st).1 = Ok (CallCreateFile req cp') ->
  w_acreate_file w req cp' = Ok br ->
  create_file w py flag llm_router st purpose provider =
    Returned (RespObject br (response_metadata br)).
Proof.
  intros Hr Hp Hd Hc Hb.
  destruct (create_file_dispatch_fixed_no_provider_key _ _ _ _ _ _ _ _ _ _ Hc) as [-> Hk].
  unfold create_file, create_file_body, handle, hbind, hlift, assign_data, hret.
  rewrite Hr, Hp, Hd, Hc. unfold with_kwargs. simpl. rewrite Hk. simpl. by rewrite Hb.
Qed.

Definition acreate_world : World :=
  {| w_file_read := Ok gpt4_file;
     w_filename := VStr "batch.jsonl";
     w_content_type := VStr "application/jsonl";
     w_body_provider := Ok None;
     w_add_data := fun d => Ok (d ++ [("custom_llm_provider", VStr "openai")])%list;
     w_acreate_file := fun _ _ => Ok empty_result;
     w_router_acreate_file := fun _ _ _ => Ok empty_result;
     w_afile_content := fun _ _ _ => Ok empty_result;
     w_afile_retrieve := fun _ _ _ => Ok empty_result;
     w_afile_delete := fun _ _ _ => Ok empty_result;
     w_afile_list := fun _ _ _ => Ok empty_result |}.

Lemma create_file_fixed_provider_returns_witness :
  create_file acreate_world py_default false None provider_config_state "batch" None =
    Returned (RespObject empty_result ("", "", "")).
Proof.
  apply (create_file_fixed_provider_returns acreate_world py_default false None provider_config_state "batch" None
           gpt4_file "openai" "openai"
           [("purpose", VStr "batch"); ("custom_llm_provider", VStr "openai")]
           [("file", gpt4_file_data); ("purpose", VStr "batch");
            ("api_base", VStr "https://config.example")]
           empty_result); try reflexivity.
Defined.

(** X16: the provider the handlers resolve is never the empty string, and a non-empty path provider is used as given. *)
Theorem resolve_provider_nonempty (w : World) (provider : option string) :
  (forall cp, resolve_provider w provider = Ok cp -> cp <> "") /\
  (forall p, p <> "" -> resolve_provider w (Some p) = Ok p).
Proof.
  split.
  - intros cp. unfold resolve_provider.
    assert (forall b : result (option string),
      (b0 <- b ;; Ok (match b0 with Some s => if String.eqb s "" then "openai" else s | None => "openai" end))
        = Ok cp -> cp <> "") as Hb.
    { intros [[s|]|e]; simpl; try discriminate.
      - destruct (String.eqb s "") eqn:Hs; intros [= <-]; [discriminate|].
        apply String.eqb_neq in Hs. done.
      - intros [= <-]. discriminate. }
    destruct provider as [p|]; [|apply Hb].
    destruct (String.eqb p "") eqn:Hp; [apply Hb|].
    intros [= <-]. by apply String.eqb_neq in Hp.
  - intros p Hp. simpl. apply String.eqb_neq in Hp. by rewrite Hp.
Qed.

Lemma resolve_provider_nonempty_witness :
  resolve_provider rate_limited_world (Some "azure") = Ok "azure".
Proof. apply (proj2 (resolve_provider_nonempty rate_limited_world (Some "azure"))). discriminate. Defined.

(** A [ProxyException] with code 500 and the default [type] and [param]. *)
Definition proxy_500 (o : outcome) : Prop :=
  exists pe, o = Raised pe /\ pe_code pe = 500 /\ pe_type pe = "None" /\ pe_param pe = "None".

(** X17: if the request data of [get_file_content], [get_file] or [delete_file] holds a [custom_llm_provider] or [file_id] key (for [list_files]: [custom_llm_provider] or [purpose]), the backend call raises [TypeError] and the handler raises a [ProxyException] with code 500. *)
Theorem files_handlers_duplicate_keyword (w : World) (provider : option string)
    (file_id : string) (purpose : option string) (data : dict) (cp : string) :
  w_add_data w [] = Ok data -> resolve_provider w provider = Ok cp ->
  (has_key data "custom_llm_provider" = true \/ has_key data "file_id" = true ->
     proxy_500 (get_file_content w provider file_id) /\ proxy_500 (get_file w provider file_id) /\
     proxy_500 (delete_file w provider file_id)) /\
  (has_key data "custom_llm_provider" = true \/ has_key data "purpose" = true ->
     proxy_500 (list_files w provider purpose)).
Proof.
  intros Hd Hp.
  assert (Hk : forall ks A (c : result A), existsb (has_key data) ks = true ->
            with_kwargs ks data c = Err (type_error "got multiple values for keyword argument")).
  { intros ks A c H. unfold with_kwargs. by rewrite H. }
  split.
  - intros Hh.
    assert (existsb (has_key data) ["custom_llm_provider"; "file_id"] = true) as He.
    { simpl. destruct Hh as [-> | ->]; [done|]. apply orb_true_r. }
    unfold get_file_content, get_file, delete_file, get_file_content_body, get_file_body,
      delete_file_body, call_afile_content, handle, hbind, hlift, assign_data.
    rewrite Hd, Hp, !Hk by exact He. simpl.
    repeat split; eexists; repeat split.
  - intros Hh.
    assert (existsb (has_key data) ["custom_llm_provider"; "purpose"] = true) as He.
    { simpl. destruct Hh as [-> | ->]; [done|]. apply orb_true_r. }
    unfold list_files, list_files_body, handle, hbind, hlift, assign_data.
    rewrite Hd, Hp, Hk by exact He. simpl.
    eexists; repeat split.
Qed.

Lemma files_handlers_duplicate_keyword_witness :
  proxy_500 (get_file acreate_world None "file-1").
Proof.
  apply (proj1 (files_handlers_duplicate_keyword acreate_world None "file-1" None
                  [("custom_llm_provider", VStr "openai")] "openai" eq_refl eq_refl)).
  left. reflexivity.
Defined.

(** X18: when the backend call succeeds, [get_file], [delete_file] and [list_files] return the backend's result unchanged, with its model id, cache key and API base (empty when missing). *)
Theorem files_handlers_return_backend_result (w : World) (provider : option string)
    (file_id : string) (purpose : option string) (data : dict) (cp : string) (br : backend_result) :
  w_add_data w [] = Ok data -> resolve_provider w provider = Ok cp ->
  has_key data "custom_llm_provider" = false ->
  (has_key data "file_id" = false -> w_afile_retrieve w cp file_id data = Ok br ->
     get_file w provider file_id = Returned (RespObject br (response_metadata br))) /\
  (has_key data "file_id" = false -> w_afile_delete w cp file_id data = Ok br ->
     delete_file w provider file_id = Returned (RespObject br (response_metadata br))) /\
  (has_key data "purpose" = false -> w_afile_list w cp purpose data = Ok br ->
     list_files w provider purpose = Returned (RespObject br (response_metadata br))).
Proof.
  intros Hd Hp Hc.
  unfold get_file, delete_file, list_files, get_file_body, delete_file_body, list_files_body,
    handle, hbind, hlift, assign_data, hret, with_kwargs.
  rewrite Hd, Hp. simpl. rewrite Hc. simpl.
  repeat split; intros Hk Hb; rewrite Hk; simpl; by rewrite Hb.
Qed.

Lemma files_handlers_return_backend_result_witness :
  get_file content_world None "file-1" = Returned (RespObject empty_result ("", "", "")).
Proof.
  apply (files_handlers_return_backend_result content_world None "file-1" None
           [("litellm_call_id", VStr "call-1")] "openai" empty_result); reflexivity.
Defined.

Lemma refs_mem_not_In i vs : ~ In (VRef i) vs -> refs_mem i vs = false.
Proof.
  induction vs as [|v vs IH]; simpl; [done|]. intros Hn.
  apply orb_false_iff. split.
  - destruct v; try done. apply bool_decide_eq_false. intros ->. apply Hn. by left.
  - apply IH. intros Hin. apply Hn. by right.
Qed.

Lemma resolve_loop_unlisted env vs h i :
  refs_mem i vs = false -> fold_left (resolve_element env) vs h !! i = h !! i.
Proof.
  revert h. induction vs as [|v vs IH]; intros h Hm; simpl in *; [done|].
  apply orb_false_iff in Hm as [Hv Hm]. rewrite IH by done. rewrite resolve_element_lookup.
  destruct v; try done. by rewrite Hv.
Qed.

Lemma resolve_loop_not_dict env vs h i :
  (forall kvs, h !! i <> Some (ODict kvs)) -> fold_left (resolve_element env) vs h !! i = h !! i.
Proof.
  revert h. induction vs as [|v vs IH]; intros h Hn; simpl; [done|].
  assert (Hs : resolve_element env h v !! i = h !! i).
  { rewrite resolve_element_lookup. destruct v; try done. case_bool_decide; [|done].
    destruct (h !! i) as [[|kvs]|] eqn:Hi; try done. by destruct (Hn kvs). }
  rewrite IH; [done|]. by rewrite Hs.
Qed.

(** X1: storing a list with [set_files_config] changes no heap object other than the dicts listed in it: the list itself, objects that are not listed and listed objects that are not dicts keep their contents. *)
Theorem set_files_config_frame (env : string -> option string) (st : state) (l i : loc)
    (vs : list value) :
  heap st !! l = Some (OList vs) ->
  ~ In (VRef i) vs \/ (forall kvs, heap st !! i <> Some (ODict kvs)) ->
  heap (set_files_config env (VRef l) st).2 !! i = heap st !! i.
Proof.
  intros Hl Hi. simpl. rewrite Hl. simpl. destruct Hi as [Hi|Hi].
  - apply resolve_loop_unlisted. by apply refs_mem_not_In.
  - by apply resolve_loop_not_dict.
Qed.

Lemma set_files_config_frame_witness :
  heap (set_files_config env_plain (VRef 1%positive) (caller_state "os.environ/KEY")).2 !! 1%positive
    = Some (OList [VRef 2%positive]).
Proof.
  apply (set_files_config_frame env_plain (caller_state "os.environ/KEY") 1%positive 1%positive
           [VRef 2%positive]); [reflexivity|].
  right. intros kvs. discriminate.
Defined.

(** A [str] value carrying the secret marker. *)
Definition marked (v : value) : bool :=
  match v with VStr s => String.prefix secret_marker s | _ => false end.

Definition setting_kept (kv kv' : string * value) : Prop :=
  kv'.1 = kv.1 /\ (marked kv.2 = false -> kv'.2 = kv.2).

Lemma resolve_value_unmarked env v : marked v = false -> resolve_value env v = v.
Proof. destruct v; simpl; try done. intros ->. done. Qed.

Lemma setting_kept_resolve env kvs0 kvs :
  Forall2 setting_kept kvs0 kvs -> Forall2 setting_kept kvs0 (resolve_dict env kvs).
Proof.
  intros H. induction H as [|kv0 kv kvs0 kvs [Hk Hv] _ IH]; simpl; constructor; [|done].
  split; [done|]. simpl. intros Hm. rewrite (Hv Hm). by apply resolve_value_unmarked.
Qed.

Lemma setting_kept_refl kvs : Forall2 setting_kept kvs kvs.
Proof. induction kvs; constructor; [split; done|done]. Qed.

Lemma resolve_loop_kept env vs h d kvs0 kvs :
  h !! d = Some (ODict kvs) -> Forall2 setting_kept kvs0 kvs ->
  exists kvs', fold_left (resolve_element env) vs h !! d = Some (ODict kvs') /\
               Forall2 setting_kept kvs0 kvs'.
Proof.
  revert h kvs. induction vs as [|v vs IH]; intros h kvs Hd Hk; simpl; [by exists kvs|].
  pose proof (resolve_element_lookup env h v d) as Hl.
  destruct v as [| | | | | |d']; try (apply (IH _ kvs); [by rewrite Hl|done]).
  case_bool_decide.
  - subst d'. rewrite Hd in Hl. simpl in Hl.
    apply (IH _ (resolve_dict env kvs)); [done|]. by apply setting_kept_resolve.
  - apply (IH _ kvs); [by rewrite Hl|done].
Qed.

(** X2: every dict keeps its keys in their order through [set_files_config], and every value that is not a marker-prefixed [str] keeps its value, however often the dict is listed. *)
Theorem set_files_config_keeps_keys (env : string -> option string) (st : state) (l d : loc)
    (vs : list value) (kvs : list (string * value)) :
  heap st !! l = Some (OList vs) -> heap st !! d = Some (ODict kvs) ->
  exists kvs', heap (set_files_config env (VRef l) st).2 !! d = Some (ODict kvs') /\
    Forall2 (fun kv kv' => kv'.1 = kv.1 /\ (marked kv.2 = false -> kv'.2 = kv.2)) kvs kvs'.
Proof.
  intros Hl Hd. simpl. rewrite Hl. simpl.
  apply (resolve_loop_kept env vs (heap st) d kvs kvs Hd (setting_kept_refl kvs)).
Qed.

Lemma set_files_config_keeps_keys_witness :
  exists kvs', heap (set_files_config env_marked (VRef 1%positive) twice_listed_state).2 !! 2%positive
      = Some (ODict kvs') /\
    Forall2 (fun kv kv' => kv'.1 = kv.1 /\ (marked kv.2 = false -> kv'.2 = kv.2))
      [("api_key", VStr "os.environ/A")] kvs'.
Proof.
  apply (set_files_config_keeps_keys env_marked twice_listed_state 1%positive 2%positive
           [VRef 2%positive; VRef 2%positive] [("api_key", VStr "os.environ/A")]); reflexivity.
Defined.

(** [set_files_config] applied to each value of [cs] in turn. *)
Fixpoint set_files_config_all (env : string -> option string) (cs : list value) (st : state) : state :=
  match cs with
  | [] => st
  | c :: cs' => set_files_config_all env cs' (set_files_config env c st).2
  end.

Lemma set_files_config_wf env c st : config_wf st -> config_wf (set_files_config env c st).2.
Proof.
  intros Hwf. destruct (set_files_config env c st) as [[[]|e] st'] eqn:Hs.
  - by apply (set_files_config_preserves_wf env c st st').
  - simpl. destruct c as [| | | | | |l]; simpl in Hs; try discriminate;
      try (injection Hs as _ <-; done).
    destruct (heap st !! l) as [[|]|]; try discriminate; injection Hs as _ <-; done.
Qed.

Lemma scan_settings_attr h x vs e : scan_settings h x vs = Err e -> exists msg, e = attribute_error msg.
Proof.
  induction vs as [|v vs IH]; simpl; [discriminate|].
  destruct v as [| | | | | |d]; try (intros [= <-]; by eexists).
  destruct (h !! d) as [[|kvs]|]; try (intros [= <-]; by eexists).
  destruct (setting_matches kvs x); [discriminate|done].
Qed.

(** X3: from the import-time state ([files_config = None]), any sequence of [set_files_config] calls leaves [files_config] as [None] or a list, so [get_files_provider_config] can only raise the unset-configuration [ValueError] or an [AttributeError]. *)
Theorem set_files_config_reachable (env : string -> option string) (cs : list value) (st0 : state)
    (x : string) (e : exc) :
  files_config st0 = VNone ->
  config_wf (set_files_config_all env cs st0) /\
  ((get_files_provider_config x (set_files_config_all env cs st0)).1 = Err e ->
   e = value_error "files_config is not set, set it on your config.yaml file." \/
   exists msg, e = attribute_error msg).
Proof.
  intros H0.
  assert (Hwf : config_wf (set_files_config_all env cs st0)).
  { assert (config_wf st0) as Hw by (by left). clear H0. revert st0 Hw.
    induction cs as [|c cs IH]; intros st0 Hw; simpl; [done|].
    by apply IH, set_files_config_wf. }
  split; [done|].
  destruct Hwf as [Hn | (l & vs & Hc & Hl)]; unfold get_files_provider_config;
    destruct (String.eqb x "vertex_ai"); simpl; try discriminate.
  - rewrite Hn. intros [= <-]. by left.
  - rewrite Hc, Hl. simpl. intros He. right. by eapply scan_settings_attr.
Qed.

Lemma set_files_config_reachable_witness :
  config_wf (set_files_config_all env_plain [VStr "bad"; VRef 1%positive] (caller_state "k")).
Proof.
  exact (proj1 (set_files_config_reachable env_plain [VStr "bad"; VRef 1%positive] (caller_state "k")
                  "openai" (value_error "") eq_refl)).
Defined.

Lemma scan_settings_sound h x vs v :
  scan_settings h x vs = Ok v ->
  v = VNone \/ exists d kvs, In (VRef d) vs /\ v = VRef d /\ h !! d = Some (ODict kvs) /\
                             dict_get kvs "custom_llm_provider" = Some (VStr x).
Proof.
  induction vs as [|w vs IH]; simpl; [intros [= <-]; by left|].
  destruct w as [| | | | | |d]; try discriminate.
  destruct (h !! d) as [[|kvs]|] eqn:Hd; try discriminate.
  destruct (setting_matches kvs x) eqn:Hm.
  - intros [= <-]. right. exists d, kvs. repeat split; [by left|done|].
    unfold setting_matches in Hm.
    destruct (dict_get kvs "custom_llm_provider") as [[| | |s| | |]|]; try discriminate.
    apply String.eqb_eq in Hm. by subst.
  - intros Hs. destruct (IH Hs) as [->|(d' & kvs' & Hin & Hrest)]; [by left|].
    right. exists d', kvs'. split; [by right|done].
Qed.

(** X4: [get_files_provider_config x] never changes the state, and what it returns is [None] or a dict listed in the stored configuration whose [custom_llm_provider] is the string [x]. *)
Theorem get_files_provider_config_returns_listed (x : string) (st st' : state) (v : value) :
  get_files_provider_config x st = (Ok v, st') ->
  st' = st /\
  (v = VNone \/
   exists l vs d kvs, files_config st = VRef l /\ heap st !! l = Some (OList vs) /\
     In (VRef d) vs /\ v = VRef d /\ heap st !! d = Some (ODict kvs) /\
     dict_get kvs "custom_llm_provider" = Some (VStr x)).
Proof.
  unfold get_files_provider_config.
  destruct (String.eqb x "vertex_ai"); [intros [= <- <-]; split; [done|by left]|].
  destruct (files_config st) as [| | | | | |l] eqn:Hc; try discriminate.
  destruct (heap st !! l) as [[vs|]|] eqn:Hl; try discriminate.
  destruct (scan_settings (heap st) x vs) as [v'|e] eqn:Hs; [|discriminate].
  intros [= <- <-]. split; [done|].
  destruct (scan_settings_sound _ _ _ _ Hs) as [->|(d & kvs & Hin & -> & Hd & Hk)]; [by left|].
  right. by exists l, vs, d, kvs.
Qed.

(** The caller's configuration once stored, with its key resolved. *)
Definition configured_state : state :=
  (set_files_config env_plain (VRef 1%positive) (caller_state "os.environ/KEY")).2.

Lemma get_files_provider_config_returns_listed_witness :
  configured_state = configured_state /\
  (VRef 2%positive = VNone \/
   exists l vs d kvs, files_config configured_state = VRef l /\
     heap configured_state !! l = Some (OList vs) /\
     In (VRef d) vs /\ VRef 2%positive = VRef d /\ heap configured_state !! d = Some (ODict kvs) /\
     dict_get kvs "custom_llm_provider" = Some (VStr "openai")).
Proof.
  apply (get_files_provider_config_returns_listed "openai" configured_state configured_state
           (VRef 2%positive)).
  vm_compute. reflexivity.
Defined.
